(** * versatrans_my_stop: the My Stop bus tracker

    A shallow embedding of [vst_mystop.py] (and of the older script
    [vst-mystop.py] where the two differ): the JSON payloads and the Python
    operations the tracker applies to them, [GeoUtils], the three session
    calls of [BusTracker] and the polling loop [track_bus].

    Conventions.
    - A Python value that came out of [response.json()] is a [json]; Python's
      [None] is [JNull].
    - Python exceptions are explicit: a computation ends in [Returned v] or
      in [Raised e], and a method of [BusTracker] also hands back the tracker
      object as it is at that moment (attribute writes made before a raise
      stay).
    - The network is a list of answers, one per [session.post], consumed in
      order; a run of the loop on a finite list ends by returning, by
      raising, or inside the call whose answer is missing.
    - Numbers are exact: JSON numbers are rationals, and the trigonometry of
      [haversine_distance] is over the reals.  The rounding of binary64 is
      not part of that model (nor are NaN and the infinities);
      [Module Binary64] evaluates [haversine_distance] and
      [degrees_to_direction] on IEEE doubles, where rounding decides.
    - The configuration holds a string under each key the calls read, so
      building the URL and the headers cannot fail; logging and the progress
      lines are left out, except the line that announces the arrival.
    - [response.json()] on a body that is not JSON raises the
      [JSONDecodeError] of [requests] (2.27 and later), a
      [RequestException]. *)

From Stdlib Require Import ZArith QArith Qround List String Ascii Bool Lia.
From Stdlib Require Import Reals Psatz.
From Stdlib Require PrimFloat FloatOps.
Import ListNotations.

Local Open Scope string_scope.
Local Open Scope Z_scope.

(** ** Python values and exceptions *)

Inductive exn : Type :=
| ConnectionError   (* requests.RequestException raised by the transport *)
| HTTPError         (* requests.HTTPError, from raise_for_status *)
| JSONDecodeError   (* requests.JSONDecodeError, from response.json() *)
| KeyError
| TypeError
| AttributeError
| IndexError
| ValueError
| OverflowError.    (* int() of an infinity *)

Inductive result (A : Type) : Type :=
| Returned (a : A)
| Raised (e : exn).
Arguments Returned {A} a.
Arguments Raised {A} e.

Definition bind {A B : Type} (r : result A) (k : A -> result B) : result B :=
  match r with
  | Returned a => k a
  | Raised e => Raised e
  end.

Declare Scope py_scope.
Delimit Scope py_scope with py.
Notation "x <- r ;; k" := (bind r (fun x => k))
  (at level 61, r at next level, right associativity) : py_scope.

(** [except requests.RequestException]: the three exceptions of the
    [requests] package. *)
Definition is_RequestException (e : exn) : bool :=
  match e with
  | ConnectionError | HTTPError | JSONDecodeError => true
  | _ => false
  end.

(** [except (KeyError, TypeError)]. *)
Definition is_KeyError_or_TypeError (e : exn) : bool :=
  match e with
  | KeyError | TypeError => true
  | _ => false
  end.

#[local] Set Warnings "-register-all".

Inductive json : Type :=
| JNull
| JBool (b : bool)
| JNum (q : Q)
| JStr (s : string)
| JArr (l : list json)
| JObj (o : list (string * json)).

(** The dictionary behind a JSON object, as an association list with the
    binding that counts first. *)
Fixpoint dict_lookup (k : string) (o : list (string * json)) : option json :=
  match o with
  | [] => None
  | (k', v) :: o' => if String.eqb k k' then Some v else dict_lookup k o'
  end.

(** Python truthiness ([if x], [not x]). *)
Definition truthy (v : json) : bool :=
  match v with
  | JNull => false
  | JBool b => b
  | JNum q => negb (Qnum q =? 0)
  | JStr s => negb (String.eqb s "")
  | JArr l => match l with [] => false | _ => true end
  | JObj o => match o with [] => false | _ => true end
  end.

(** [v is not None]. *)
Definition is_not_None (v : json) : bool :=
  match v with
  | JNull => false
  | _ => true
  end.

Fixpoint is_prefix (p s : string) : bool :=
  match p, s with
  | EmptyString, _ => true
  | String a p', String b s' => if Ascii.eqb a b then is_prefix p' s' else false
  | String _ _, EmptyString => false
  end.

Fixpoint is_substring (p s : string) : bool :=
  if is_prefix p s then true
  else match s with
       | EmptyString => false
       | String _ s' => is_substring p s'
       end.

Definition json_is_str (k : string) (v : json) : bool :=
  match v with
  | JStr s => String.eqb k s
  | _ => false
  end.

(** ["key" in v]. *)
Definition py_contains (k : string) (v : json) : result bool :=
  match v with
  | JObj o => Returned (match dict_lookup k o with Some _ => true | None => false end)
  | JArr l => Returned (existsb (json_is_str k) l)
  | JStr s => Returned (is_substring k s)
  | JNull | JBool _ | JNum _ => Raised TypeError
  end.

(** [v["key"]]. *)
Definition py_getitem (v : json) (k : string) : result json :=
  match v with
  | JObj o => match dict_lookup k o with
              | Some x => Returned x
              | None => Raised KeyError
              end
  | _ => Raised TypeError
  end.

(** [l[i]] on a Python sequence of length [List.length l]: a negative index
    counts from the end, anything outside raises [IndexError]. *)
Definition py_list_index {A : Type} (l : list A) (i : Z) : result A :=
  let n := Z.of_nat (List.length l) in
  let j := if i <? 0 then i + n else i in
  if (j <? 0) || (n <=? j) then Raised IndexError
  else match nth_error l (Z.to_nat j) with
       | Some x => Returned x
       | None => Raised IndexError
       end.

Fixpoint string_chars (s : string) : list json :=
  match s with
  | EmptyString => []
  | String a s' => JStr (String a EmptyString) :: string_chars s'
  end.

(** [v[i]] with an integer [i]. *)
Definition py_getitem_int (v : json) (i : Z) : result json :=
  match v with
  | JArr l => py_list_index l i
  | JStr s => py_list_index (string_chars s) i
  | JObj _ => Raised KeyError
  | JNull | JBool _ | JNum _ => Raised TypeError
  end.

(** [v.get("key", default)]: only a [dict] has the method. *)
Definition py_get (v : json) (k : string) (default : json) : result json :=
  match v with
  | JObj o => Returned (match dict_lookup k o with
                        | Some x => x
                        | None => default
                        end)
  | _ => Raised AttributeError
  end.

(** A Python number used in float arithmetic: [int], [float] or [bool]. *)
Definition py_number (v : json) : result Q :=
  match v with
  | JNum q => Returned q
  | JBool b => Returned (if b then 1%Q else 0%Q)
  | _ => Raised TypeError
  end.

(** ** GeoUtils *)

Module GeoUtils.

(** The compass table of [degrees_to_direction], 17 entries. *)
Definition directions : list string :=
  [ "N"; "NNE"; "NE"; "ENE"; "E"; "ESE"; "SE"; "SSE";
    "S"; "SSW"; "SW"; "WSW"; "W"; "WNW"; "NW"; "NNW"; "N" ].

(** [x % m]: the result has the sign of [m]. *)
Definition py_mod (x m : Q) : Q := (x - m * inject_Z (Qfloor (x / m)))%Q.

(** [int(x)] truncates toward zero. *)
Definition py_int (x : Q) : Z := Z.quot (Qnum x) (Zpos (Qden x)).

(** [index = int((degrees + 11.25) % 360 / 22.5)] *)
Definition direction_index (degrees : Q) : Z :=
  py_int (py_mod (degrees + (45 # 4)) 360 / (45 # 2))%Q.

Definition degrees_to_direction (degrees : Q) : result string :=
  py_list_index directions (direction_index degrees).

(** [math.radians] *)
Definition radians (x : R) : R := (x * (PI / 180))%R.

(** [math.atan2(y, x)], the angle of the point [(x, y)] in [(-pi, pi]]. *)
Definition atan2 (y x : R) : R :=
  if Rlt_dec 0 x then atan (y / x)
  else if Rlt_dec x 0 then
         if Rle_dec 0 y then (atan (y / x) + PI)%R else (atan (y / x) - PI)%R
       else if Rlt_dec 0 y then (PI / 2)%R
            else if Rlt_dec y 0 then (- (PI / 2))%R
                 else 0%R.

(** [math.sqrt] raises [ValueError] (math domain error) below zero. *)
Definition py_sqrt (x : R) : result R :=
  if Rlt_dec x 0 then Raised ValueError else Returned (sqrt x).

(** The haversine term [a] of [haversine_distance]. *)
Definition haversine_a (lat1 lon1 lat2 lon2 : R) : R :=
  let phi1 := radians lat1 in
  let phi2 := radians lat2 in
  let delta_phi := radians (lat2 - lat1) in
  let delta_lambda := radians (lon2 - lon1) in
  ((sin (delta_phi / 2)) ^ 2
   + cos phi1 * cos phi2 * (sin (delta_lambda / 2)) ^ 2)%R.

Definition haversine_distance (lat1 lon1 lat2 lon2 : R) : result R :=
  let r := 6371000%R in
  let a := haversine_a lat1 lon1 lat2 lon2 in
  (sa <- py_sqrt a ;;
   sb <- py_sqrt (1 - a) ;;
   let c := (2 * atan2 sa sb)%R in
   Returned (r * c)%R)%py.

(** The call as [track_bus] makes it, on values taken from a payload:
    [math.radians] refuses what is not a number. *)
Definition haversine_distance_py (lat1 lon1 lat2 lon2 : json) : result R :=
  (x1 <- py_number lat1 ;;
   x2 <- py_number lat2 ;;
   y1 <- py_number lon1 ;;
   y2 <- py_number lon2 ;;
   haversine_distance (Q2R x1) (Q2R y1) (Q2R x2) (Q2R y2))%py.

(** [degrees_to_direction(v)] on a value taken from a payload. *)
Definition degrees_to_direction_py (v : json) : result string :=
  (d <- py_number v ;; degrees_to_direction d)%py.

End GeoUtils.

(** ** The tracker object *)

(** [SessionInfo] and [BusInfo]; every field starts as [None]. *)
Record SessionInfo : Type := mkSessionInfo {
  session_id : json;
  login_guid : json;
  record_id : json
}.

Record BusInfo : Type := mkBusInfo {
  bus_id : json;
  route_number : json;
  stop_latitude : json;
  stop_longitude : json
}.

Record BusTracker : Type := mkBusTracker {
  session_info : SessionInfo;
  bus_info : BusInfo
}.

Definition SessionInfo_init : SessionInfo := mkSessionInfo JNull JNull JNull.
Definition BusInfo_init : BusInfo := mkBusInfo JNull JNull JNull JNull.

(** [BusTracker.__init__] *)
Definition BusTracker_init : BusTracker := mkBusTracker SessionInfo_init BusInfo_init.

(** ** What the network answers

    One [session.post] either raises in the transport or yields a response:
    its status code and its body, [None] when the body is not JSON. *)
Inductive http_outcome : Type :=
| TransportFailure
| Response (status_code : Z) (body : option json).

Definition post (o : http_outcome) : result (Z * option json) :=
  match o with
  | TransportFailure => Raised ConnectionError
  | Response st b => Returned (st, b)
  end.

(** [response.raise_for_status()]: an [HTTPError] for 4xx and 5xx. *)
Definition raise_for_status (st : Z) : result unit :=
  if (400 <=? st) && (st <? 600) then Raised HTTPError else Returned tt.

(** [response.json()] *)
Definition response_json (b : option json) : result json :=
  match b with
  | Some d => Returned d
  | None => Raised JSONDecodeError
  end.

(** ** Methods: a result and the tracker as the call leaves it *)

Definition M (A : Type) : Type := BusTracker -> result A * BusTracker.

Definition ret {A : Type} (a : A) : M A := fun t => (Returned a, t).

Definition lift {A : Type} (r : result A) : M A := fun t => (r, t).

Definition mbind {A B : Type} (m : M A) (k : A -> M B) : M B :=
  fun t => match m t with
           | (Returned a, t') => k a t'
           | (Raised e, t') => (Raised e, t')
           end.

Notation "x <~ m ;; k" := (mbind m (fun x => k))
  (at level 61, m at next level, right associativity) : py_scope.
Notation "m ;;; k" := (mbind m (fun _ => k))
  (at level 61, right associativity) : py_scope.

(** [try: body  except <caught>: handler] *)
Definition try_except {A : Type} (body : M A) (caught : exn -> bool)
    (handler : M A) : M A :=
  fun t => match body t with
           | (Raised e, t') => if caught e then handler t' else (Raised e, t')
           | r => r
           end.

Definition set_session_id (v : json) : M unit := fun t =>
  (Returned tt,
   mkBusTracker (mkSessionInfo v (login_guid (session_info t)) (record_id (session_info t)))
                (bus_info t)).

Definition set_login_guid (v : json) : M unit := fun t =>
  (Returned tt,
   mkBusTracker (mkSessionInfo (session_id (session_info t)) v (record_id (session_info t)))
                (bus_info t)).

Definition set_record_id (v : json) : M unit := fun t =>
  (Returned tt,
   mkBusTracker (mkSessionInfo (session_id (session_info t)) (login_guid (session_info t)) v)
                (bus_info t)).

Definition set_bus_id (v : json) : M unit := fun t =>
  (Returned tt,
   mkBusTracker (session_info t)
     (mkBusInfo v (route_number (bus_info t)) (stop_latitude (bus_info t))
                (stop_longitude (bus_info t)))).

Definition set_route_number (v : json) : M unit := fun t =>
  (Returned tt,
   mkBusTracker (session_info t)
     (mkBusInfo (bus_id (bus_info t)) v (stop_latitude (bus_info t))
                (stop_longitude (bus_info t)))).

Definition set_stop_latitude (v : json) : M unit := fun t =>
  (Returned tt,
   mkBusTracker (session_info t)
     (mkBusInfo (bus_id (bus_info t)) (route_number (bus_info t)) v
                (stop_longitude (bus_info t)))).

Definition set_stop_longitude (v : json) : M unit := fun t =>
  (Returned tt,
   mkBusTracker (session_info t)
     (mkBusInfo (bus_id (bus_info t)) (route_number (bus_info t))
                (stop_latitude (bus_info t)) v)).

(** What the three calls return: [(latitude, longitude, heading, logtime)]. *)
Definition sample : Type := (json * json * json * json)%type.

(** [return None, None, None, None] *)
Definition no_sample : sample := (JNull, JNull, JNull, JNull).

(** ** BusTracker (vst_mystop.py) *)

(** [_handle_api_error]: log, then [self.bus_info.bus_id = None]. *)
Definition _handle_api_error : M unit := set_bus_id JNull.

(** [data["Students"][0]] *)
Definition first_student (data : json) : result json :=
  (students <- py_getitem data "Students" ;; py_getitem_int students 0)%py.

(** The second half of the [try] of [login_user], reached when the bus is
    running: the attributes are written one by one, then the position is
    read. *)
Definition login_user_populate (data matched_bus_data : json) : M sample :=
  (v <~ lift (py_get data "SessionID" JNull) ;; set_session_id v ;;;
   v <~ lift (py_get data "LoginGUID" JNull) ;; set_login_guid v ;;;
   student <~ lift (first_student data) ;;
   v <~ lift (py_get student "RecordID" JNull) ;; set_record_id v ;;;
   v <~ lift (py_get matched_bus_data "RPVehicleId" JNull) ;; set_bus_id v ;;;
   student <~ lift (first_student data) ;;
   matched_route <~ lift (py_get student "MatchedRoute" (JObj [])) ;;
   v <~ lift (py_get matched_route "Route" JNull) ;; set_route_number v ;;;
   v <~ lift (py_get matched_route "StopLatitude" JNull) ;; set_stop_latitude v ;;;
   v <~ lift (py_get matched_route "StopLongitude" JNull) ;; set_stop_longitude v ;;;
   latitude <~ lift (py_get matched_bus_data "Latitude" JNull) ;;
   longitude <~ lift (py_get matched_bus_data "Longitude" JNull) ;;
   heading <~ lift (py_get matched_bus_data "Heading" JNull) ;;
   logtime <~ lift (py_get matched_bus_data "LogTime" JNull) ;;
   ret (latitude, longitude, heading, logtime))%py.

(** The body of the [try] of [login_user]. *)
Definition login_user_try (o : http_outcome) : M sample :=
  (response <~ lift (post o) ;;
   lift (raise_for_status (fst response)) ;;;
   data <~ lift (response_json (snd response)) ;;
   (* if "Students" not in data or not data["Students"]: *)
   has_students <~ lift (py_contains "Students" data) ;;
   students_ok <~ (if has_students
                   then students <~ lift (py_getitem data "Students") ;;
                        ret (truthy students)
                   else ret false) ;;
   if negb students_ok then
     set_bus_id JNull ;;; ret no_sample
   else
     student <~ lift (first_student data) ;;
     matched_bus_data <~ lift (py_get student "MatchedBusData" JNull) ;;
     if negb (truthy matched_bus_data) then
       set_bus_id JNull ;;; ret no_sample
     else
       isactive <~ lift (py_get matched_bus_data "IsActive" (JBool false)) ;;
       if negb (truthy isactive) then
         set_bus_id JNull ;;; ret no_sample
       else
         login_user_populate data matched_bus_data)%py.

(** [login_user]: the [try] with its two handlers, which do the same. *)
Definition login_user (o : http_outcome) : M sample :=
  try_except
    (try_except (login_user_try o) is_RequestException
       (_handle_api_error ;;; ret no_sample)%py)
    is_KeyError_or_TypeError
    (_handle_api_error ;;; ret no_sample)%py.

(** [vehicledata] *)
Definition vehicledata (o : http_outcome) : M sample :=
  (response <~ lift (post o) ;;
   if fst response =? 200 then
     data <~ lift (response_json (snd response)) ;;
     stu_bus_data <~ lift (py_getitem data "StuBusData") ;;
     isactive <~ lift (py_get stu_bus_data "IsActive" (JBool false)) ;;
     if negb (truthy isactive) then
       set_bus_id JNull ;;; ret no_sample
     else
       latitude <~ lift (py_get stu_bus_data "Latitude" JNull) ;;
       longitude <~ lift (py_get stu_bus_data "Longitude" JNull) ;;
       heading <~ lift (py_get stu_bus_data "Heading" JNull) ;;
       logtime <~ lift (py_get stu_bus_data "LogTime" JNull) ;;
       ret (latitude, longitude, heading, logtime)
   else
     set_bus_id JNull ;;; ret no_sample)%py.

(** [recentvehicledata] *)
Definition recentvehicledata (o : http_outcome) : M sample :=
  (response <~ lift (post o) ;;
   if fst response =? 200 then
     data <~ lift (response_json (snd response)) ;;
     (* if data and "BusData" in data: *)
     has_bus_data <~ (if truthy data then lift (py_contains "BusData" data)
                      else ret false) ;;
     if has_bus_data then
       history <~ lift (py_get data "BusData" JNull) ;;
       bus_info <~ lift (py_getitem_int history 1) ;;
       heading_degrees <~ lift (py_getitem bus_info "HeadingDegrees") ;;
       direction <~ lift (GeoUtils.degrees_to_direction_py heading_degrees) ;;
       latitude <~ lift (py_get bus_info "Latitude" JNull) ;;
       longitude <~ lift (py_get bus_info "Longitude" JNull) ;;
       logtime <~ lift (py_get bus_info "LogTime" JNull) ;;
       ret (latitude, longitude, JStr direction, logtime)
     else
       set_bus_id JNull ;;; ret no_sample
   else
     set_bus_id JNull ;;; ret no_sample)%py.

(** ** The polling loop

    The loop is run against the answers the network gives, in order; it does
    what a terminal would show: the calls it makes, its sleeps, and the line
    that announces the arrival. *)

Inductive event : Type :=
| EvLogin                          (* POST api/admin/loginuser *)
| EvVehicleData (vehicle_id : json) (* POST api/student/vehicledata *)
| EvSleep (seconds : Z)            (* time.sleep *)
| EvAtStop.                        (* print("Bus is at bus stop.") *)

(** How far a run got on the answers it was given: it returned, it raised,
    or it is inside a call whose answer is not in the list. *)
Inductive progress (A : Type) : Type :=
| Finished (a : A)
| Failed (e : exn)
| Blocked.
Arguments Finished {A} a.
Arguments Failed {A} e.
Arguments Blocked {A}.

Record run (A : Type) : Type := mkRun {
  outcome : progress A;
  tracker : BusTracker;
  trace : list event;
  unread : list http_outcome
}.
Arguments mkRun {A} outcome tracker trace unread.
Arguments outcome {A} r.
Arguments tracker {A} r.
Arguments trace {A} r.
Arguments unread {A} r.

(** The events [evs] happened, then the run [r]. *)
Definition after {A : Type} (evs : list event) (r : run A) : run A :=
  mkRun (outcome r) (tracker r) (evs ++ trace r) (unread r).

(** The test of the [while] of [check_bus_status]:
    [not self.bus_info.bus_id or latitude is None or longitude is None]. *)
Definition not_running (t : BusTracker) (s : sample) : bool :=
  let '(latitude, longitude, _, _) := s in
  negb (truthy (bus_id (bus_info t)))
  || negb (is_not_None latitude) || negb (is_not_None longitude).

(** [check_bus_status]: log in until a running bus with a position comes
    back, 300 seconds apart. *)
Fixpoint check_bus_status (answers : list http_outcome) (t : BusTracker)
    : run sample :=
  match answers with
  | [] => mkRun Blocked t [EvLogin] []
  | o :: rest =>
      match login_user o t with
      | (Raised e, t') => mkRun (Failed e) t' [EvLogin] rest
      | (Returned s, t') =>
          if not_running t' s
          then after [EvLogin; EvSleep 300] (check_bus_status rest t')
          else mkRun (Finished s) t' [EvLogin] rest
      end
  end.

(** The first statement of the [while True] of [track_bus]: the distance,
    or [None] when a coordinate is missing. *)
Definition distance_to_target (t : BusTracker) (s : sample) : result (option R) :=
  let '(latitude, longitude, _, _) := s in
  if is_not_None (stop_latitude (bus_info t))
     && is_not_None (stop_longitude (bus_info t))
     && is_not_None latitude && is_not_None longitude
  then (d <- GeoUtils.haversine_distance_py latitude longitude
              (stop_latitude (bus_info t)) (stop_longitude (bus_info t)) ;;
        Returned (Some d))%py
  else Returned None.

(** [distance_to_target is not None and distance_to_target < target] *)
Definition at_stop (d : option R) (target_distance_meters : R) : bool :=
  match d with
  | Some x => if Rlt_dec x target_distance_meters then true else false
  | None => false
  end.

(** The [while True] of [track_bus], entered with the latest sample. *)
Fixpoint track_loop (target_distance_meters : R) (answers : list http_outcome)
    (s : sample) (t : BusTracker) : run unit :=
  match distance_to_target t s with
  | Raised e => mkRun (Failed e) t [] answers
  | Returned d =>
      if at_stop d target_distance_meters
      then mkRun (Finished tt) t [EvAtStop] answers
      else
        match answers with
        | [] => mkRun Blocked t [EvSleep 33; EvVehicleData (bus_id (bus_info t))] []
        | o :: rest =>
            match vehicledata o t with
            | (Raised e, t') =>
                mkRun (Failed e) t' [EvSleep 33; EvVehicleData (bus_id (bus_info t))] rest
            | (Returned s', t') =>
                after [EvSleep 33; EvVehicleData (bus_id (bus_info t))]
                      (track_loop target_distance_meters rest s' t')
            end
        end
  end.

(** [track_bus] *)
Definition track_bus (target_distance_meters : R) (answers : list http_outcome)
    (t : BusTracker) : run unit :=
  let r := check_bus_status answers t in
  match outcome r with
  | Finished s =>
      after (trace r) (track_loop target_distance_meters (unread r) s (tracker r))
  | Failed e => mkRun (Failed e) (tracker r) (trace r) (unread r)
  | Blocked => mkRun Blocked (tracker r) (trace r) (unread r)
  end.

Definition TARGET_DISTANCE_METERS : Z := 82.

(** The call of [main]:
    [bus_tracker.track_bus(target_distance_meters=TARGET_DISTANCE_METERS)]
    on the fresh tracker. *)
Definition main_track_bus (answers : list http_outcome) : run unit :=
  track_bus (IZR TARGET_DISTANCE_METERS) answers BusTracker_init.

(** ** The older script (vst-mystop.py)

    Same object, same [vehicledata] and [recentvehicledata]; [login_user] has
    no [try], and [track_bus] logs in again inside its loop and never leaves
    it (its [break] is commented out). *)

Module Legacy.

(** [data["Students"][0][k]] *)
Definition matched (data : json) (k : string) : result json :=
  (student <- first_student data ;; py_getitem student k)%py.

(** [login_user]: nothing is caught, and every field is read through
    [data["Students"][0]] again. *)
Definition login_user (o : http_outcome) : M sample :=
  (response <~ lift (post o) ;;
   if fst response =? 200 then
     data <~ lift (response_json (snd response)) ;;
     student <~ lift (first_student data) ;;
     matched_bus_data <~ lift (py_get student "MatchedBusData" (JObj [])) ;;
     isactive <~ (if truthy matched_bus_data
                  then lift (py_get matched_bus_data "IsActive" (JBool false))
                  else ret (JBool false)) ;;
     if negb (truthy isactive) then
       set_bus_id JNull ;;; ret no_sample
     else
       v <~ lift (py_get data "SessionID" JNull) ;; set_session_id v ;;;
       v <~ lift (py_get data "LoginGUID" JNull) ;; set_login_guid v ;;;
       student <~ lift (first_student data) ;;
       v <~ lift (py_get student "RecordID" JNull) ;; set_record_id v ;;;
       bus <~ lift (matched data "MatchedBusData") ;;
       v <~ lift (py_get bus "RPVehicleId" JNull) ;; set_bus_id v ;;;
       route <~ lift (matched data "MatchedRoute") ;;
       v <~ lift (py_get route "Route" JNull) ;; set_route_number v ;;;
       route <~ lift (matched data "MatchedRoute") ;;
       v <~ lift (py_get route "StopLatitude" JNull) ;; set_stop_latitude v ;;;
       route <~ lift (matched data "MatchedRoute") ;;
       v <~ lift (py_get route "StopLongitude" JNull) ;; set_stop_longitude v ;;;
       bus <~ lift (matched data "MatchedBusData") ;;
       latitude <~ lift (py_get bus "Latitude" JNull) ;;
       bus <~ lift (matched data "MatchedBusData") ;;
       longitude <~ lift (py_get bus "Longitude" JNull) ;;
       bus <~ lift (matched data "MatchedBusData") ;;
       heading <~ lift (py_get bus "Heading" JNull) ;;
       bus <~ lift (matched data "MatchedBusData") ;;
       logtime <~ lift (py_get bus "LogTime" JNull) ;;
       ret (latitude, longitude, heading, logtime)
   else
     set_bus_id JNull ;;; ret no_sample)%py.

(** The call the loop of [track_bus] is about to make. [Login true] is the
    login of the inner [while], [Login false] the one before the loop. *)
Inductive call : Type :=
| Login (in_loop : bool)
| VehicleData.

Definition call_event (c : call) (t : BusTracker) : event :=
  match c with
  | Login _ => EvLogin
  | VehicleData => EvVehicleData (bus_id (bus_info t))
  end.

Definition make_call (c : call) (o : http_outcome) : M sample :=
  match c with
  | Login _ => login_user o
  | VehicleData => vehicledata o
  end.

(** The lines after a sample that counts: the distance (no test of the stop
    coordinates), and inside the loop the arrival line; the [break] that
    followed it is a comment. *)
Definition report (c : call) (target_distance_meters : R) (t : BusTracker)
    (s : sample) : result (list event) :=
  let '(latitude, longitude, _, _) := s in
  (d <- GeoUtils.haversine_distance_py latitude longitude
          (stop_latitude (bus_info t)) (stop_longitude (bus_info t)) ;;
   Returned (match c with
             | Login false => []
             | _ => if Rlt_dec d target_distance_meters then [EvAtStop] else []
             end))%py.

(** [track_bus] from the call [c] on: the call, the inner [while] when no
    running bus came back, else the report and the sleep of 33 seconds
    before the next [vehicledata]. *)
Fixpoint track_from (c : call) (target_distance_meters : R)
    (answers : list http_outcome) (t : BusTracker) : run unit :=
  match answers with
  | [] => mkRun Blocked t [call_event c t] []
  | o :: rest =>
      match make_call c o t with
      | (Raised e, t') => mkRun (Failed e) t' [call_event c t] rest
      | (Returned s, t') =>
          if not_running t' s
          then after [call_event c t; EvSleep 300]
                 (track_from (Login (match c with Login b => b | VehicleData => true end))
                    target_distance_meters rest t')
          else match report c target_distance_meters t' s with
               | Raised e => mkRun (Failed e) t' [call_event c t] rest
               | Returned printed =>
                   after (call_event c t :: printed ++ [EvSleep 33])
                     (track_from VehicleData target_distance_meters rest t')
               end
      end
  end.

(** [track_bus] starts with the first login. *)
Definition track_bus (target_distance_meters : R) (answers : list http_outcome)
    (t : BusTracker) : run unit :=
  track_from (Login false) target_distance_meters answers t.

End Legacy.

(** ** haversine_distance on IEEE doubles

    The arithmetic of the formula as CPython runs it: binary64 operations,
    [math.sqrt] with its domain check, and the C library behind [math.sin],
    [math.cos], [math.atan2] and [**]. *)

Module Binary64.

Import PrimFloat.
Local Open Scope float_scope.

Record libm : Type := mkLibm {
  c_sin : float -> float;
  c_cos : float -> float;
  c_atan2 : float -> float -> float;
  c_pow : float -> float -> float
}.

(** [Py_MATH_PI / 180.0] *)
Definition degToRad : float := 0x1.921fb54442d18p+1 / 180.

Definition radians (x : float) : float := x * degToRad.

Definition py_sqrt (x : float) : result float :=
  if ltb x 0 then Raised ValueError else Returned (sqrt x).

Definition haversine_a (m : libm) (lat1 lon1 lat2 lon2 : float) : float :=
  let phi1 := radians lat1 in
  let phi2 := radians lat2 in
  let delta_phi := radians (lat2 - lat1) in
  let delta_lambda := radians (lon2 - lon1) in
  c_pow m (c_sin m (delta_phi / 2)) 2
  + c_cos m phi1 * c_cos m phi2 * c_pow m (c_sin m (delta_lambda / 2)) 2.

Definition haversine_distance (m : libm) (lat1 lon1 lat2 lon2 : float)
    : result float :=
  let r := 6371000 in
  let a := haversine_a m lat1 lon1 lat2 lon2 in
  (sa <- py_sqrt a ;;
   sb <- py_sqrt (1 - a) ;;
   let c := 2 * c_atan2 m sa sb in
   Returned (r * c))%py.

(** Eight degrees in radians, and a quarter turn. *)
Definition rad8 : float := 0x1.1df46a2529d39p-3.      (* 0.13962634015954636 *)
Definition half_pi : float := 0x1.921fb54442d18p+0.   (* 1.5707963267948966 *)

(** The doubles nearest to sin and cos of [rad8]. *)
Definition sin_rad8 : float := 0x1.1d06c968d9e19p-3.  (* 0.13917310096006544 *)
Definition cos_rad8 : float := 0x1.fb046a930947ap-1.  (* 0.9902680687415704 *)

(** A C library that is right, to the nearest double, at the five arguments
    the run of [haversine_distance(8, -180, -8, 0)] asks for. *)
Definition rounds_correctly_here (m : libm) : Prop :=
  c_sin m (- rad8) = - sin_rad8
  /\ c_cos m rad8 = cos_rad8
  /\ c_cos m (- rad8) = cos_rad8
  /\ c_sin m half_pi = 1
  /\ c_pow m (- sin_rad8) 2 = sin_rad8 * sin_rad8
  /\ c_pow m 1 2 = 1.

(** Such a library, as a table. *)
Definition table_libm : libm :=
  mkLibm
    (fun x => if Leibniz.eqb x half_pi then 1
              else if Leibniz.eqb x (- rad8) then - sin_rad8 else x)
    (fun x => if Leibniz.eqb (abs x) rad8 then cos_rad8 else 1)
    (fun y x => y / x)
    (fun x y => x * x).

(** *** degrees_to_direction on IEEE doubles *)

(** A finite double is [m * 2^e] for the integers [to_ZE] gives. *)
Definition to_ZE (x : float) : Z * Z :=
  if is_zero x then (0, 0)%Z
  else
    let (f, e) := frshiftexp x in
    let m := Uint63Axioms.to_Z (normfr_mantissa f) in
    (if get_sign x then - m else m,
     Uint63Axioms.to_Z e - FloatOps.shift - FloatOps.prec)%Z.


(** The double [m * 2^e], for [|m| < 2^53] and [e] in range. *)
Definition of_ZE (m e : Z) : float :=
  let f := FloatOps.Z.ldexp (of_uint63 (Uint63Axioms.of_Z (Z.abs m))) e in
  if (m <? 0)%Z then - f else f.

(** [float(n)] for an integer below [2^53] in size. *)
Definition of_Z (n : Z) : float :=
  let f := of_uint63 (Uint63Axioms.of_Z (Z.abs n)) in
  if (n <? 0)%Z then - f else f.


(** C's [fmod]: the remainder of the division truncated toward zero,
    which is always a double, so nothing is rounded; it has the sign of
    [x]. *)
Definition fmod (x y : float) : float :=
  if is_nan x || is_nan y || is_infinity x || is_zero y then nan
  else if is_infinity y then x
  else
    let (mx, ex) := to_ZE x in
    let (my, ey) := to_ZE y in
    let e := Z.min ex ey in
    let r := Z.rem (Z.shiftl mx (ex - e)) (Z.shiftl my (ey - e)) in
    if (r =? 0)%Z then (if get_sign x then - 0 else 0) else of_ZE r e.

(** [vx % wx] on floats, for [wx] other than zero, as CPython's
    [float_rem] computes it: [fmod], then the divisor added when the
    signs differ.  That addition rounds. *)
Definition py_mod (vx wx : float) : float :=
  let mod_ := fmod vx wx in
  if is_zero mod_ then (if get_sign wx then - 0 else 0)
  else if xorb (ltb wx 0) (ltb mod_ 0) then mod_ + wx else mod_.

(** [int(x)]: truncation toward zero. *)
Definition py_int (x : float) : result Z :=
  if is_nan x then Raised ValueError
  else if is_infinity x then Raised OverflowError
  else
    let (m, e) := to_ZE x in
    Returned (if (0 <=? e)%Z then Z.shiftl m e
              else Z.sgn m * Z.shiftr (Z.abs m) (- e))%Z.

(** [index = int((degrees + 11.25) % 360 / 22.5)] *)
Definition direction_index (degrees : float) : result Z :=
  py_int (py_mod (degrees + 11.25) 360 / 22.5).

Definition degrees_to_direction (degrees : float) : result string :=
  (index <- direction_index degrees ;;
   py_list_index GeoUtils.directions index)%py.


End Binary64.

(** ** The rest of BusTracker *)

(** [except (KeyError, TypeError, IndexError)] *)
Definition is_KeyError_TypeError_IndexError (e : exn) : bool :=
  match e with
  | KeyError | TypeError | IndexError => true
  | _ => false
  end.

(** [data["Students"][0]["StudentScans"][0]["Scans"]] *)
Definition scans_path (data : json) : result json :=
  (students <- py_getitem data "Students" ;;
   student <- py_getitem_int students 0 ;;
   student_scans <- py_getitem student "StudentScans" ;;
   first_scans <- py_getitem_int student_scans 0 ;;
   py_getitem first_scans "Scans")%py.

(** [student_scans]; the request never touches the tracker. *)
Definition student_scans (o : http_outcome) : M json :=
  (response <~ lift (post o) ;;
   if fst response =? 200 then
     data <~ lift (response_json (snd response)) ;;
     try_except (lift (scans_path data)) is_KeyError_TypeError_IndexError
       (ret (JArr []))
   else
     ret (JArr []))%py.

(** ** SchoolService *)

Module SchoolService.

(** [requests.get] ends as [session.post] does: it raises in the transport
    or yields a response. *)
Definition get (o : http_outcome) : result (Z * option json) := post o.

(** [get_all_school_list] *)
Definition get_all_school_list (o : http_outcome) : result json :=
  match (response <- get o ;;
         _ <- raise_for_status (fst response) ;;
         data <- response_json (snd response) ;;
         has_clients <- py_contains "Clients" data ;;
         if has_clients then py_getitem data "Clients"
         else Returned (JArr []))%py
  with
  | Raised e => if is_RequestException e then Returned (JArr []) else Raised e
  | Returned school_list => Returned school_list
  end.

(** [get_closest_school_list]; the coordinates go into the request only. *)
Definition get_closest_school_list (o : http_outcome) : result json :=
  (response <- post o ;;
   if fst response =? 200 then
     data <- response_json (snd response) ;;
     py_get data "Clients" (JArr [])
   else Returned (JArr []))%py.

(** What [for ... in v] goes through. *)
Definition py_iter (v : json) : result (list json) :=
  match v with
  | JArr l => Returned l
  | JObj o => Returned (map (fun kv => JStr (fst kv)) o)
  | JStr s => Returned (string_chars s)
  | JNull | JBool _ | JNum _ => Raised TypeError
  end.

(** [len(v)] *)
Definition py_len (v : json) : result Z :=
  match v with
  | JArr l => Returned (Z.of_nat (List.length l))
  | JObj o => Returned (Z.of_nat (List.length o))
  | JStr s => Returned (Z.of_nat (String.length s))
  | JNull | JBool _ | JNum _ => Raised TypeError
  end.

(** The listing: [school['Account']] is read for every school, in order. *)
Fixpoint list_accounts (schools : list json) : result unit :=
  match schools with
  | [] => Returned tt
  | school :: rest =>
      (_ <- py_getitem school "Account" ;; list_accounts rest)%py
  end.

(** The dictionary [select_school] returns for the school picked. *)
Definition school_info (selected_school : json)
    : result (list (string * json)) :=
  (serial <- py_getitem selected_school "Serial" ;;
   service_url <- py_getitem selected_school "ServiceUrl" ;;
   latitude <- py_getitem selected_school "Latitude" ;;
   longitude <- py_getitem selected_school "Longitude" ;;
   Returned [ ("SchoolGUID", serial); ("ServiceUrl", service_url);
              ("SchoolLatitude", latitude); ("SchoolLongitude", longitude) ])%py.

End SchoolService.

(** What a call that reads the terminal comes to, on the lines typed so
    far: a value and the lines not read, an exception, or a prompt that
    waits for a line. *)
Inductive asked (A : Type) : Type :=
| Answered (a : A) (unread_lines : list string)
| Threw (e : exn) (unread_lines : list string)
| Waiting.
Arguments Answered {A} a unread_lines.
Arguments Threw {A} e unread_lines.
Arguments Waiting {A}.

(** ** Text *)

(** A character is a code point below 256. [str.isspace] holds for twelve
    of them. *)
Definition is_space (c : ascii) : bool :=
  let n := N_of_ascii c in
  ((9 <=? n) && (n <=? 13) || (28 <=? n) && (n <=? 32)
   || (n =? 133) || (n =? 160))%N.

Fixpoint lstrip (s : string) : string :=
  match s with
  | String c s' => if is_space c then lstrip s' else s
  | EmptyString => EmptyString
  end.

(** [rstrip]: a space stays when something that is no space follows. *)
Fixpoint rstrip (s : string) : string :=
  match s with
  | EmptyString => EmptyString
  | String c s' =>
      match rstrip s' with
      | EmptyString => if is_space c then EmptyString else String c EmptyString
      | r => String c r
      end
  end.

(** [s.strip()] *)
Definition strip (s : string) : string := rstrip (lstrip s).

(** [s.split(sep, 1)] for a separator of one character. *)
Fixpoint split_once (sep : ascii) (s : string) : list string :=
  match s with
  | EmptyString => [EmptyString]
  | String c s' =>
      if Ascii.eqb c sep then [EmptyString; s']
      else match split_once sep s' with
           | head :: tail => String c head :: tail
           | [] => [String c EmptyString]
           end
  end.

(** [s.split(sep)] for a separator of one character. *)
Fixpoint split_all (sep : ascii) (s : string) : list string :=
  match s with
  | EmptyString => [EmptyString]
  | String c s' =>
      if Ascii.eqb c sep then EmptyString :: split_all sep s'
      else match split_all sep s' with
           | head :: tail => String c head :: tail
           | [] => [String c EmptyString]
           end
  end.

Definition newline : ascii := "010"%char.
Definition carriage_return : ascii := "013"%char.

(** Reading in text mode: "\r\n" and "\r" come out as "\n". *)
Fixpoint universal_newlines (s : string) : string :=
  match s with
  | EmptyString => EmptyString
  | String c s' =>
      if Ascii.eqb c carriage_return then
        match s' with
        | String c' s'' =>
            if Ascii.eqb c' newline then String newline (universal_newlines s'')
            else String newline (universal_newlines s')
        | EmptyString => String newline EmptyString
        end
      else String c (universal_newlines s')
  end.

(** [for line in file]: each line with its "\n", the last one maybe
    without. *)
Fixpoint file_lines (text : string) : list string :=
  match text with
  | EmptyString => []
  | String c s' =>
      if Ascii.eqb c newline then String c EmptyString :: file_lines s'
      else match file_lines s' with
           | line :: rest => String c line :: rest
           | [] => [String c EmptyString]
           end
  end.

(** ** ConfigManager *)

(** [d[key] = value]: a key keeps the place where it was first put; a new
    key goes to the end. *)
Fixpoint dict_set (k : string) (v : json) (d : list (string * json))
    : list (string * json) :=
  match d with
  | [] => [(k, v)]
  | (k', v') :: d' =>
      if String.eqb k k' then (k, v) :: d' else (k', v') :: dict_set k v d'
  end.

(** [d.get(key)] *)
Definition dict_get (d : list (string * json)) (k : string) : json :=
  match dict_lookup k d with
  | Some v => v
  | None => JNull
  end.

(** [key in d] *)
Definition dict_has (k : string) (d : list (string * json)) : bool :=
  match dict_lookup k d with
  | Some _ => true
  | None => false
  end.

(** [d.update(other)] *)
Definition dict_update (d other : list (string * json)) : list (string * json) :=
  fold_left (fun acc kv => dict_set (fst kv) (snd kv) acc) other d.

Module ConfigManager.

(** [key, value = parts] *)
Definition unpack_pair (parts : list string) : result (string * string) :=
  match parts with
  | [key; value] => Returned (key, value)
  | _ => Raised ValueError
  end.

(** The body of the [for] of [load_config]. *)
Definition load_line (config : list (string * json)) (line : string)
    : result (list (string * json)) :=
  if is_substring "=" line then
    (kv <- unpack_pair (split_once "=" (strip line)) ;;
     Returned (dict_set (fst kv)
                 (if String.eqb (snd kv) "" then JNull else JStr (snd kv))
                 config))%py
  else Returned config.

Fixpoint load_lines (lines : list string) (config : list (string * json))
    : result (list (string * json)) :=
  match lines with
  | [] => Returned config
  | line :: rest =>
      (config' <- load_line config line ;; load_lines rest config')%py
  end.

(** [load_config]: the file is [None] when it does not exist. *)
Definition load_config (file : option string) : result (list (string * json)) :=
  match file with
  | None => Returned []
  | Some raw => load_lines (file_lines (universal_newlines raw)) []
  end.

Section Formatting.

(** [str(v)] for a value that is not a string, as the f-string of
    [save_config] needs it. *)
Variable str_of : json -> string.

Definition format_value (v : json) : string :=
  match v with
  | JStr s => s
  | _ => str_of v
  end.

(** [f"{key}={value if value else ''}\n"] *)
Definition save_line (kv : string * json) : string :=
  fst kv ++ "=" ++ (if truthy (snd kv) then format_value (snd kv) else "")
  ++ String newline EmptyString.

(** [save_config]: what the file holds afterwards. *)
Definition save_config (config : list (string * json)) : string :=
  String.concat "" (map save_line config).

End Formatting.

(** One [if not self.config.get(key): self.config[key] = input(...)]. *)
Definition ask (key : string) (config : list (string * json))
    (inputs : list string) : asked (list (string * json)) :=
  if negb (truthy (dict_get config key)) then
    match inputs with
    | [] => Waiting
    | line :: rest => Answered (dict_set key (JStr line) config) rest
    end
  else Answered config inputs.

(** [prompt_for_credentials] *)
Definition prompt_for_credentials (config : list (string * json))
    (inputs : list string) : asked (list (string * json)) :=
  match ask "Username" config inputs with
  | Answered config' rest => ask "Password" config' rest
  | other => other
  end.

End ConfigManager.

(** ** Choosing the school, and main *)

Section Builtins.

(** [int(s)]: [None] stands for [ValueError]. *)
Variable int_of_str : string -> option Z.

(** [str(v)] for the values that are not strings. *)
Variable str_of : json -> string.

(** The [while True] of [select_school]. *)
Fixpoint select_loop (school_list : json) (inputs : list string)
    : asked (list (string * json)) :=
  match inputs with
  | [] => Waiting
  | line :: rest =>
      match int_of_str line with
      | None => select_loop school_list rest
      | Some n =>
          let choice := n - 1 in
          match (if 0 <=? choice
                 then (len <- SchoolService.py_len school_list ;;
                       Returned (choice <? len))%py
                 else Returned false)
          with
          | Raised e => Threw e rest
          | Returned true =>
              match (selected_school <- py_getitem_int school_list choice ;;
                     SchoolService.school_info selected_school)%py
              with
              | Returned info => Answered info rest
              | Raised e => Threw e rest
              end
          | Returned false => select_loop school_list rest
          end
      end
  end.

(** [select_school]: [None], or the dictionary of the school picked. *)
Definition select_school (school_list : json) (inputs : list string)
    : asked (option (list (string * json))) :=
  if negb (truthy school_list) then Answered None inputs
  else
    match (schools <- SchoolService.py_iter school_list ;;
           SchoolService.list_accounts schools)%py
    with
    | Raised e => Threw e inputs
    | Returned _ =>
        match select_loop school_list inputs with
        | Answered info rest => Answered (Some info) rest
        | Threw e rest => Threw e rest
        | Waiting => Waiting
        end
    end.

(** What a call of the tracker does before it sends anything: the URL and
    the [Host] header come from [config["ServiceUrl"]]. *)
Definition service_host (config : list (string * json)) : result string :=
  match dict_lookup "ServiceUrl" config with
  | None => Raised KeyError
  | Some (JStr url) => py_list_index (split_all "/" url) 2
  | Some _ => Raised AttributeError
  end.

Definition config_item (config : list (string * json)) (k : string) : result json :=
  match dict_lookup k config with
  | Some v => Returned v
  | None => Raised KeyError
  end.

(** The lines of [login_user] above its [try]. *)
Definition login_request (config : list (string * json)) : result unit :=
  (_ <- service_host config ;;
   _ <- config_item config "Username" ;;
   _ <- config_item config "Password" ;;
   _ <- config_item config "DeviceID" ;;
   _ <- config_item config "SchoolGUID" ;;
   Returned tt)%py.

(** [bus_tracker.track_bus(target_distance_meters=TARGET_DISTANCE_METERS)]
    with the configuration in view: the first login raises before it posts
    when its request cannot be built; once it can, so can every later
    request, the configuration being what it was. *)
Definition tracking (config : list (string * json)) (answers : list http_outcome)
    : run unit :=
  match login_request config with
  | Raised e => mkRun (Failed e) BusTracker_init [] answers
  | Returned _ => main_track_bus answers
  end.

(** What [main] runs in: the configuration file ([None] when there is
    none), the lines typed, the identifier [uuid.uuid4()] draws and the
    answers of the network. *)
Record world : Type := mkWorld {
  config_file : option string;
  stdin : list string;
  fresh_uuid : string;
  network : list http_outcome
}.

Inductive main_event : Type :=
| MvGetAll                 (* GET api/ClientList/getall *)
| MvSave                   (* save_config *)
| MvTracker (e : event)    (* what track_bus does *)
| MvFatal (e : exn).       (* logging.error("Fatal error: %s", e) *)

Record main_run : Type := mkMainRun {
  main_outcome : progress unit;
  main_file : option string;
  main_trace : list main_event;
  main_stdin : list string;
  main_network : list http_outcome
}.

(** [if "SchoolGUID" not in config or "ServiceUrl" not in config or ...] *)
Definition school_missing (config : list (string * json)) : bool :=
  negb (dict_has "SchoolGUID" config) || negb (dict_has "ServiceUrl" config)
  || negb (dict_has "SchoolLatitude" config)
  || negb (dict_has "SchoolLongitude" config).

(** The last two statements of the [try] of [main]. *)
Definition save_and_track (config : list (string * json))
    (before : list main_event) (inputs : list string)
    (answers : list http_outcome) : main_run :=
  let r := tracking config answers in
  mkMainRun (outcome r) (Some (ConfigManager.save_config str_of config))
    (before ++ MvSave :: map MvTracker (trace r))
    inputs (unread r).

(** The [try] of [main]. *)
Definition main_try (w : world) : main_run :=
  match ConfigManager.load_config (config_file w) with
  | Raised e => mkMainRun (Failed e) (config_file w) [] (stdin w) (network w)
  | Returned loaded =>
      match ConfigManager.prompt_for_credentials loaded (stdin w) with
      | Waiting => mkMainRun Blocked (config_file w) [] [] (network w)
      | Threw e rest => mkMainRun (Failed e) (config_file w) [] rest (network w)
      | Answered with_credentials rest =>
          let config :=
            if negb (truthy (dict_get with_credentials "DeviceID"))
            then dict_set "DeviceID" (JStr (fresh_uuid w)) with_credentials
            else with_credentials in
          if school_missing config then
            match network w with
            | [] => mkMainRun Blocked (config_file w) [MvGetAll] rest []
            | o :: answers =>
                match SchoolService.get_all_school_list o with
                | Raised e =>
                    mkMainRun (Failed e) (config_file w) [MvGetAll] rest answers
                | Returned school_list =>
                    if negb (truthy school_list) then
                      mkMainRun (Finished tt) (config_file w) [MvGetAll] rest answers
                    else
                      match select_school school_list rest with
                      | Waiting =>
                          mkMainRun Blocked (config_file w) [MvGetAll] [] answers
                      | Threw e rest' =>
                          mkMainRun (Failed e) (config_file w) [MvGetAll] rest' answers
                      | Answered None rest' =>
                          mkMainRun (Finished tt) (config_file w) [MvGetAll] rest' answers
                      | Answered (Some []) rest' =>
                          mkMainRun (Finished tt) (config_file w) [MvGetAll] rest' answers
                      | Answered (Some info) rest' =>
                          save_and_track (dict_update config info) [MvGetAll]
                            rest' answers
                      end
                end
            end
          else save_and_track config [] rest (network w)
      end
  end.

(** [except (ValueError, TypeError, requests.RequestException)] *)
Definition is_caught_by_main (e : exn) : bool :=
  match e with
  | ValueError | TypeError => true
  | _ => is_RequestException e
  end.

(** [main]: what its [try] does, and the fatal error logged for the
    exceptions it catches; any other exception leaves it. *)
Definition main (w : world) : main_run :=
  let r := main_try w in
  match main_outcome r with
  | Failed e =>
      if is_caught_by_main e
      then mkMainRun (Finished tt) (main_file r) (main_trace r ++ [MvFatal e])
             (main_stdin r) (main_network r)
      else r
  | _ => r
  end.

End Builtins.

(** [int] for what the witnesses type: decimal digits, nothing else. *)
Fixpoint digits_value (s : string) (acc : Z) : option Z :=
  match s with
  | EmptyString => Some acc
  | String c s' =>
      let n := Z.of_N (N_of_ascii c) in
      if (48 <=? n) && (n <=? 57) then digits_value s' (10 * acc + (n - 48))
      else None
  end.

Definition decimal_int (s : string) : option Z :=
  match s with
  | EmptyString => None
  | _ => digits_value s 0
  end.

(** [str] for the witnesses, none of which formats anything but strings. *)
Definition str_of_unused (v : json) : string := "".


(** ** Notions the statements use *)




(** The tracker with its [bus_id] set to [None], nothing else touched. *)
Definition bus_id_cleared (t : BusTracker) : BusTracker :=
  mkBusTracker (session_info t)
    (mkBusInfo JNull (route_number (bus_info t)) (stop_latitude (bus_info t))
               (stop_longitude (bus_info t))).

(** The login payload names a matched bus whose activity flag is set. *)
Definition matched_bus_active (data : json) : bool :=
  match data with
  | JObj o =>
      match dict_lookup "Students" o with
      | Some (JArr (JObj student :: _)) =>
          match dict_lookup "MatchedBusData" student with
          | Some (JObj bus) =>
              match dict_lookup "IsActive" bus with
              | Some flag => truthy flag
              | None => false
              end
          | _ => false
          end
      | _ => false
      end
  | _ => false
  end.

(** The answer to a login is a response that is no HTTP error and whose
    payload names an active bus. *)
Definition login_finds_active_bus (o : http_outcome) : bool :=
  match o with
  | Response st (Some data) =>
      negb ((400 <=? st) && (st <? 600)) && matched_bus_active data
  | _ => false
  end.

(** Payloads of the shape the school service sends. *)
Module Samples.

Definition bus_data (active : bool) (latitude longitude : Q) : json :=
  JObj [ ("IsActive", JBool active); ("RPVehicleId", JStr "bus-42");
         ("Latitude", JNum latitude); ("Longitude", JNum longitude);
         ("Heading", JStr "N"); ("LogTime", JStr "07:31:05") ].

Definition route_data (stop_lat stop_lon : Q) : json :=
  JObj [ ("Route", JStr "12"); ("StopLatitude", JNum stop_lat);
         ("StopLongitude", JNum stop_lon) ].

Definition login_payload (bus route : json) : json :=
  JObj [ ("SessionID", JStr "sid-1"); ("LoginGUID", JStr "guid-1");
         ("Students",
          JArr [ JObj [ ("RecordID", JStr "rec-1");
                        ("MatchedBusData", bus); ("MatchedRoute", route) ] ]) ].

(** The bus at (0, 0), the stop at (0.0007, 0): about 78 meters. *)
Definition login_near : http_outcome :=
  Response 200 (Some (login_payload (bus_data true 0 0) (route_data (7 # 10000) 0))).

(** The bus at (0, 0), the stop at (0.0045, 0): about 500 meters. *)
Definition login_far : http_outcome :=
  Response 200 (Some (login_payload (bus_data true 0 0) (route_data (45 # 10000) 0))).

Definition tracker_near : BusTracker :=
  mkBusTracker (mkSessionInfo (JStr "sid-1") (JStr "guid-1") (JStr "rec-1"))
    (mkBusInfo (JStr "bus-42") (JStr "12") (JNum (7 # 10000)) (JNum 0)).

Definition tracker_far : BusTracker :=
  mkBusTracker (mkSessionInfo (JStr "sid-1") (JStr "guid-1") (JStr "rec-1"))
    (mkBusInfo (JStr "bus-42") (JStr "12") (JNum (45 # 10000)) (JNum 0)).

Definition sample_origin : sample := (JNum 0, JNum 0, JStr "N", JStr "07:31:05").

(** [vehicledata] answers: the bus stopped running, coordinates still there. *)
Definition vehicle_inactive : http_outcome :=
  Response 200 (Some (JObj [ ("StuBusData", bus_data false (1 # 2) (1 # 4)) ])).

(** [recentvehicledata] answers with a history of one entry. *)
Definition history_entry (heading_degrees : Q) : json :=
  JObj [ ("Latitude", JNum (1 # 2)); ("Longitude", JNum (1 # 4));
         ("HeadingDegrees", JNum heading_degrees); ("LogTime", JStr "07:31:05") ].

Definition recent_one_entry : http_outcome :=
  Response 200 (Some (JObj [ ("BusData", JArr [ history_entry 90 ]) ])).


(** Logins whose payload is not of the expected shape. *)
Definition login_null_student : http_outcome :=
  Response 200 (Some (JObj [ ("Students", JArr [ JNull ]) ])).

Definition login_null_route : http_outcome :=
  Response 200 (Some (login_payload (bus_data true 0 0) JNull)).

End Samples.

(** ** Notions for the rest of the program *)

(** The scans a payload holds at
    ["Students"][0]["StudentScans"][0]["Scans"], if it has that shape. *)
Definition scans_at (data : json) : option json :=
  match data with
  | JObj d =>
      match dict_lookup "Students" d with
      | Some (JArr (JObj student :: _)) =>
          match dict_lookup "StudentScans" student with
          | Some (JArr (JObj first_scans :: _)) => dict_lookup "Scans" first_scans
          | _ => None
          end
      | _ => None
      end
  | _ => None
  end.

(** [v] is a JSON object. *)
Definition is_object (v : json) : bool :=
  match v with JObj _ => true | _ => false end.

(** The line typed is no ordinal of the list: no number, or one outside
    [1 .. n]. *)
Definition invalid_choice (int_of_str : string -> option Z) (n : nat)
    (line : string) : Prop :=
  match int_of_str line with
  | None => True
  | Some m => ~ (1 <= m <= Z.of_nat n)
  end.

(** The character occurs in the string. *)
Fixpoint has_char (c : ascii) (s : string) : bool :=
  match s with
  | EmptyString => false
  | String b s' => Ascii.eqb c b || has_char c s'
  end.

Definition starts_with_space (s : string) : bool :=
  match s with
  | String c _ => is_space c
  | EmptyString => false
  end.

Fixpoint ends_with_space (s : string) : bool :=
  match s with
  | EmptyString => false
  | String c EmptyString => is_space c
  | String _ s' => ends_with_space s'
  end.

(** A newline occurs nowhere in the string but, maybe, at its end. *)
Fixpoint newline_only_last (s : string) : bool :=
  match s with
  | EmptyString => true
  | String c EmptyString => true
  | String c s' => negb (Ascii.eqb c newline) && newline_only_last s'
  end.

(** A key that survives [load_config]: no [=], no line break, no space in
    front. *)
Definition clean_key (k : string) : bool :=
  negb (has_char "=" k) && negb (has_char newline k)
  && negb (has_char carriage_return k) && negb (starts_with_space k).

(** A value that survives: [None], or a string that is not empty, holds no
    line break and ends in no space. *)
Definition clean_value (v : json) : bool :=
  match v with
  | JNull => true
  | JStr s =>
      negb (String.eqb s "") && negb (has_char newline s)
      && negb (has_char carriage_return s) && negb (ends_with_space s)
  | _ => false
  end.

(** A configuration of such keys and values, no key twice. *)
Definition clean_config (config : list (string * json)) : Prop :=
  NoDup (map fst config)
  /\ Forall (fun kv => clean_key (fst kv) = true /\ clean_value (snd kv) = true)
            config.

(** What [save_config] writes after the [=]. *)
Definition saved_value (str_of : json -> string) (v : json) : string :=
  if truthy v then ConfigManager.format_value str_of v else "".

(** The configuration holds the seven keys [main] fills in before it
    starts the tracker. *)
Definition complete_config (config : list (string * json)) : Prop :=
  Forall (fun k => dict_has k config = true)
    [ "Username"; "Password"; "DeviceID"; "SchoolGUID"; "ServiceUrl";
      "SchoolLatitude"; "SchoolLongitude" ].

(** A directory, a configuration and three runs of the setup. *)
Module Setup.

Definition school (account serial service_url : string) : json :=
  JObj [ ("Account", JStr account); ("Serial", JStr serial);
         ("ServiceUrl", JStr service_url);
         ("Latitude", JStr "41.5"); ("Longitude", JStr "-81.7") ].

Definition schools : list json :=
  [ school "Northside" "guid-n" "https://north.example/";
    school "Southside" "guid-s" "https://south.example/svc/" ].

Definition southside_info : list (string * json) :=
  [ ("SchoolGUID", JStr "guid-s");
    ("ServiceUrl", JStr "https://south.example/svc/");
    ("SchoolLatitude", JStr "41.5"); ("SchoolLongitude", JStr "-81.7") ].

Definition configured : list (string * json) :=
  [ ("Username", JStr "pat"); ("Password", JStr "s3cret");
    ("DeviceID", JStr "0b9c6f0e") ] ++ southside_info.

(** A first start: no file, the directory out of reach. *)
Definition first_start : world :=
  mkWorld None [ "pat"; "s3cret" ] "0b9c6f0e"
    [ TransportFailure; Samples.login_far ].

(** A later start, the file as [save_config] left it. *)
Definition later_start : world :=
  mkWorld (Some (ConfigManager.save_config str_of_unused configured))
    [ "not asked for" ] "1d2e3f4a" [ Samples.login_near ].

(** A directory whose only school has no name. *)
Definition nameless_directory : world :=
  mkWorld None [ "pat"; "s3cret"; "1" ] "0b9c6f0e"
    [ Response 200
        (Some (JObj [ ("Clients",
                       JArr [ JObj [ ("Serial", JStr "guid-x") ] ]) ])) ].

(** A login that finds the bus not running, and a [vehicledata] answer
    with the bus on its way. *)
Definition login_idle : http_outcome :=
  Response 200
    (Some (Samples.login_payload (Samples.bus_data false 0 0)
             (Samples.route_data (45 # 10000) 0))).

Definition vehicle_running : http_outcome :=
  Response 200
    (Some (JObj [ ("StuBusData", Samples.bus_data true (1 # 2) (1 # 4)) ])).

End Setup.




(** ** Proof steps that recur *)

(** Split on the innermost [match] of the goal. *)
Ltac break_match :=
  match goal with
  | |- context [match ?x with _ => _ end] =>
      tryif (match x with context [match _ with _ => _ end] => idtac end)
      then fail else destruct x eqn:?
  end.

Ltac unfold_M :=
  unfold mbind, lift, ret, try_except, _handle_api_error, set_bus_id,
    set_session_id, set_login_guid, set_record_id, set_route_number,
    set_stop_latitude, set_stop_longitude, bus_id_cleared; cbn [fst snd].

(** An event is not in an explicit trace. *)
Ltac not_in_trace :=
  split; intros H; cbn [In] in H;
  repeat (destruct H as [H | H]; [discriminate |]); tauto.

(** * Properties *)

(** ** degrees_to_direction *)

Section Compass.

Import GeoUtils.
Local Open Scope Q_scope.








End Compass.


(** *** The bearings of two decimals

    The code computes on doubles.  For the bearings [n / 100] from -360
    to 720 the doubles are run one by one. *)







Section CompassDoubles.

Import PrimFloat.
Local Open Scope float_scope.




End CompassDoubles.

(** ** haversine_distance over the reals *)

Section Haversine.

Import GeoUtils.
Local Open Scope R_scope.

Lemma radians_minus (x y : R) : radians (x - y) = radians x - radians y.
Proof. unfold radians. ring. Qed.

Lemma sin_sqr_half (x : R) : (sin (x / 2)) ^ 2 = (1 - cos x) / 2.
Proof.
  replace x with (2 * (x / 2)) at 2 by field.
  rewrite cos_2a_sin. field.
Qed.

Lemma sin_sqr_bounds (x : R) : 0 <= (sin x) ^ 2 <= 1.
Proof. pose proof (SIN_bound x). nra. Qed.

(** In exact arithmetic the haversine term is the half of one minus the
    cosine of the central angle, hence between 0 and 1, whatever the
    arguments. *)
Lemma haversine_a_range (lat1 lon1 lat2 lon2 : R) :
  0 <= haversine_a lat1 lon1 lat2 lon2 <= 1.
Proof.
  unfold haversine_a. cbv zeta.
  rewrite radians_minus.
  set (A := radians lat1). set (B := radians lat2).
  set (D := radians (lon2 - lon1) / 2).
  rewrite sin_sqr_half, cos_minus.
  pose proof (sin_sqr_bounds D) as Hs.
  pose proof (COS_bound (A + B)) as Hp. rewrite cos_plus in Hp.
  pose proof (COS_bound (B - A)) as Hm. rewrite cos_minus in Hm.
  set (s := sin D ^ 2) in *.
  set (cA := cos A) in *. set (cB := cos B) in *.
  set (sA := sin A) in *. set (sB := sin B) in *.
  destruct (Rle_dec 0 (cA * cB)) as [Hc | Hc]; split; nra.
Qed.



Lemma py_sqrt_nonneg (x : R) : 0 <= x -> py_sqrt x = Returned (sqrt x).
Proof.
  intros Hx. unfold py_sqrt.
  destruct (Rlt_dec x 0) as [H | H]; [lra | reflexivity].
Qed.

(** Over the reals neither square root can fail: the call returns. *)
Lemma haversine_distance_value (lat1 lon1 lat2 lon2 : R) :
  haversine_distance lat1 lon1 lat2 lon2 =
  Returned (6371000 * (2 * atan2 (sqrt (haversine_a lat1 lon1 lat2 lon2))
                                (sqrt (1 - haversine_a lat1 lon1 lat2 lon2)))).
Proof.
  unfold haversine_distance. cbv zeta.
  pose proof (haversine_a_range lat1 lon1 lat2 lon2) as [H0 H1].
  rewrite (py_sqrt_nonneg _ H0). simpl.
  rewrite py_sqrt_nonneg by lra. reflexivity.
Qed.

Lemma atan2_first_quadrant (y x : R) :
  0 <= y -> 0 <= x -> 0 <= atan2 y x <= PI / 2.
Proof.
  intros Hy Hx. unfold atan2.
  pose proof PI2_RGT_0 as Hpi.
  destruct (Rlt_dec 0 x) as [Hx0 | Hx0].
  - pose proof (atan_bound (y / x)) as [_ Hb].
    split; [| lra].
    destruct (Req_dec y 0) as [-> | Hy0].
    + unfold Rdiv. rewrite Rmult_0_l, atan_0. lra.
    + left. rewrite <- atan_0. apply atan_increasing.
      apply Rdiv_lt_0_compat; lra.
  - destruct (Rlt_dec x 0) as [Hx1 | Hx1]; [lra |].
    destruct (Rlt_dec 0 y) as [Hy1 | Hy1]; [lra |].
    destruct (Rlt_dec y 0) as [Hy2 | Hy2]; lra.
Qed.


Lemma atan2_sin_cos (t : R) :
  0 < cos t -> - (PI / 2) < t < PI / 2 -> atan2 (sin t) (cos t) = t.
Proof.
  intros Hc Ht. unfold atan2.
  destruct (Rlt_dec 0 (cos t)) as [H | H]; [| lra].
  change (sin t / cos t) with (tan t). apply atan_tan. exact Ht.
Qed.

(** Over the reals, with no rounding, the formula has a value for all
    arguments, never negative and never more than half the
    circumference.  On doubles it has not, see [Module Binary64]. *)
Lemma haversine_distance_bounds (lat1 lon1 lat2 lon2 : R) :
  exists d, haversine_distance lat1 lon1 lat2 lon2 = Returned d
            /\ 0 <= d <= 6371000 * PI.
Proof.
  eexists. split; [apply haversine_distance_value |].
  pose proof (haversine_a_range lat1 lon1 lat2 lon2) as [H0 H1].
  pose proof (atan2_first_quadrant
                (sqrt (haversine_a lat1 lon1 lat2 lon2))
                (sqrt (1 - haversine_a lat1 lon1 lat2 lon2))
                (sqrt_pos _) (sqrt_pos _)) as [Ha Hb].
  split; nra.
Qed.

(** Two points on one meridian, less than a half turn apart going north:
    the distance is the arc. *)
Lemma haversine_distance_meridian (lat1 lat2 lon : R) :
  0 <= radians (lat2 - lat1) < PI ->
  haversine_distance lat1 lon lat2 lon = Returned (6371000 * radians (lat2 - lat1)).
Proof.
  intros [Hlo Hhi]. rewrite haversine_distance_value.
  set (t := radians (lat2 - lat1) / 2).
  assert (Ha : haversine_a lat1 lon lat2 lon = (sin t) ^ 2).
  { unfold haversine_a. cbv zeta. fold t.
    replace (radians (lon - lon) / 2) with 0 by (unfold radians; field).
    rewrite sin_0. ring. }
  rewrite Ha.
  assert (Ht : 0 <= t < PI / 2) by (unfold t; lra).
  assert (Hs : 0 <= sin t) by (apply sin_ge_0; lra).
  assert (Hc : 0 < cos t) by (apply cos_gt_0; lra).
  replace (1 - sin t ^ 2) with (cos t ^ 2).
  2:{ pose proof (sin2_cos2 t) as H. unfold Rsqr in H. nra. }
  rewrite !sqrt_pow2 by lra.
  rewrite atan2_sin_cos by (try exact Hc; lra).
  unfold t. f_equal. field.
Qed.

Lemma PI_lt_33_10 : PI < 33 / 10.
Proof.
  pose proof (PI_ineq 3) as [_ H].
  unfold sum_f_R0, tg_alt, PI_tg in H. simpl in H.
  lra.
Qed.

Lemma PI_gt_2 : 2 < PI.
Proof. pose proof PI2_1. lra. Qed.

End Haversine.


(** ** The session calls *)

(** [vehicledata] leaves the tracker as it was, or with [bus_id] cleared. *)
Lemma vehicledata_frame (o : http_outcome) (t : BusTracker) :
  snd (vehicledata o t) = t \/ snd (vehicledata o t) = bus_id_cleared t.
Proof.
  unfold vehicledata. unfold_M.
  repeat (break_match; cbn [fst snd]); auto.
Qed.

Lemma recentvehicledata_frame (o : http_outcome) (t : BusTracker) :
  snd (recentvehicledata o t) = t \/ snd (recentvehicledata o t) = bus_id_cleared t.
Proof.
  unfold recentvehicledata. unfold_M.
  repeat (break_match; cbn [fst snd]); auto.
Qed.

(** A login that does not find an active bus ends in the empty result with
    [bus_id] cleared, or in an exception that leaves the tracker alone. *)
Lemma login_user_not_active (o : http_outcome) (t : BusTracker) :
  login_finds_active_bus o = false ->
  login_user o t = (Returned no_sample, bus_id_cleared t)
  \/ exists e, login_user o t = (Raised e, t).
Proof.
  unfold login_user, login_user_try, first_student, bind,
    login_finds_active_bus, matched_bus_active, post, raise_for_status,
    response_json, py_contains, py_getitem, py_getitem_int, py_get.
  unfold_M.
  destruct o as [| st [data |]]; cbn; eauto.
  - destruct ((400 <=? st) && (st <? 600)); cbn; eauto.
    destruct data as [| b | q | s | l | d]; cbn; eauto.
    + destruct (is_substring "Students" s); cbn; eauto.
    + destruct (existsb (json_is_str "Students") l); cbn; eauto.
    + destruct (dict_lookup "Students" d) as [students |]; cbn; eauto.
      destruct students as [| b | q | s | l | d']; cbn; eauto.
      * destruct b; cbn; eauto.
      * destruct (negb (Qnum q =? 0)); cbn; eauto.
      * destruct s as [| c s]; cbn; eauto.
      * destruct l as [| student l]; cbn; eauto.
        destruct student as [| b | q | s | l' | stu]; cbn; eauto.
        destruct (dict_lookup "MatchedBusData" stu) as [bus |]; cbn; eauto.
        destruct bus as [| b | q | s | l' | bus]; cbn; eauto.
        -- destruct b; cbn; eauto.
        -- destruct (negb (Qnum q =? 0)); cbn; eauto.
        -- destruct (negb (s =? "")%string); cbn; eauto.
        -- destruct l'; cbn; eauto.
        -- destruct bus as [| kv bus]; cbn [negb]; eauto.
           destruct (dict_lookup "IsActive" (kv :: bus)) as [flag |]; cbn; eauto.
           destruct (truthy flag); cbn; eauto. discriminate.
      * destruct d'; cbn; eauto.
  - destruct ((400 <=? st) && (st <? 600)); cbn; eauto.
Qed.

Lemma dict_lookup_some_nonempty (k : string) (d : list (string * json)) (v : json) :
  dict_lookup k d = Some v -> truthy (JObj d) = true.
Proof. destruct d; [discriminate | reflexivity]. Qed.

(** C6. A [vehicledata] call whose 2xx response carries [IsActive: false]
    clears [bus_id] and returns no sample, whatever else the payload holds:
    the coordinates next to the flag are not looked at. *)
Theorem vehicledata_inactive_flag
    (st : Z) (d bus : list (string * json)) (t : BusTracker) :
  200 <= st < 300 ->
  dict_lookup "StuBusData" d = Some (JObj bus) ->
  dict_lookup "IsActive" bus = Some (JBool false) ->
  vehicledata (Response st (Some (JObj d))) t
  = (Returned no_sample, bus_id_cleared t).
Proof.
  intros Hst Hd Hflag. unfold vehicledata. unfold_M.
  unfold post. cbn [fst snd].
  destruct (st =? 200); [| reflexivity].
  unfold response_json, py_getitem. rewrite Hd.
  unfold py_get. rewrite Hflag. reflexivity.
Qed.

(** [vehicledata_inactive_flag] on a 200 response that has the flag off and
    a latitude, a longitude and a heading beside it. *)
Lemma vehicledata_inactive_flag_witness :
  vehicledata Samples.vehicle_inactive Samples.tracker_far
  = (Returned no_sample, bus_id_cleared Samples.tracker_far).
Proof.
  apply (vehicledata_inactive_flag 200 _
           [ ("IsActive", JBool false); ("RPVehicleId", JStr "bus-42");
             ("Latitude", JNum (1 # 2)); ("Longitude", JNum (1 # 4));
             ("Heading", JStr "N"); ("LogTime", JStr "07:31:05") ]).
  - lia.
  - reflexivity.
  - reflexivity.
Defined.

(** C10. Under every answer of the network, [vehicledata] and
    [recentvehicledata] leave [session_id], [login_guid], [record_id], the
    stop coordinates and the route number as they were; of the tracker they
    change at most [bus_id], and only to [None]. *)
Theorem fetch_calls_frame :
  forall (o : http_outcome) (t : BusTracker),
    (snd (vehicledata o t) = t \/ snd (vehicledata o t) = bus_id_cleared t)
    /\ (snd (recentvehicledata o t) = t
        \/ snd (recentvehicledata o t) = bus_id_cleared t)
    /\ session_info (snd (vehicledata o t)) = session_info t
    /\ session_info (snd (recentvehicledata o t)) = session_info t
    /\ route_number (bus_info (snd (vehicledata o t))) = route_number (bus_info t)
    /\ route_number (bus_info (snd (recentvehicledata o t))) = route_number (bus_info t)
    /\ stop_latitude (bus_info (snd (vehicledata o t))) = stop_latitude (bus_info t)
    /\ stop_latitude (bus_info (snd (recentvehicledata o t))) = stop_latitude (bus_info t)
    /\ stop_longitude (bus_info (snd (vehicledata o t))) = stop_longitude (bus_info t)
    /\ stop_longitude (bus_info (snd (recentvehicledata o t))) = stop_longitude (bus_info t)
    /\ (bus_id (bus_info (snd (vehicledata o t))) = bus_id (bus_info t)
        \/ bus_id (bus_info (snd (vehicledata o t))) = JNull)
    /\ (bus_id (bus_info (snd (recentvehicledata o t))) = bus_id (bus_info t)
        \/ bus_id (bus_info (snd (recentvehicledata o t))) = JNull).
Proof.
  intros o t.
  pose proof (vehicledata_frame o t) as Hv.
  pose proof (recentvehicledata_frame o t) as Hr.
  repeat split; try assumption;
    try (destruct Hv as [-> | ->]; reflexivity);
    try (destruct Hr as [-> | ->]; reflexivity).
  - destruct Hv as [-> | ->]; [left | right]; reflexivity.
  - destruct Hr as [-> | ->]; [left | right]; reflexivity.
Qed.

(** C4, as the claim has it, fails: [vehicledata] finds the bus inactive,
    clears [bus_id] and returns nothing, and the three session fields still
    hold what the login gave them. *)
Lemma session_kept_after_inactive :
  fst (vehicledata Samples.vehicle_inactive Samples.tracker_far) = Returned no_sample
  /\ bus_id (bus_info (snd (vehicledata Samples.vehicle_inactive Samples.tracker_far)))
     = JNull
  /\ session_info (snd (vehicledata Samples.vehicle_inactive Samples.tracker_far))
     = mkSessionInfo (JStr "sid-1") (JStr "guid-1") (JStr "rec-1")
  /\ session_info (snd (vehicledata Samples.vehicle_inactive Samples.tracker_far))
     <> SessionInfo_init.
Proof. repeat split. discriminate. Qed.

(** C4, amended. When a call finds the bus inactive or fails, [bus_id] is
    cleared and the session fields keep their values: the two fetch calls
    never write them, and a login writes them only when it finds an active
    bus; otherwise it ends in the empty result with [bus_id] cleared (or
    raises) and the session is as before. *)
Theorem session_fields_kept :
  (forall (o : http_outcome) (t : BusTracker),
      session_info (snd (vehicledata o t)) = session_info t
      /\ session_info (snd (recentvehicledata o t)) = session_info t)
  /\ (forall (o : http_outcome) (t : BusTracker),
         login_finds_active_bus o = false ->
         session_info (snd (login_user o t)) = session_info t
         /\ (forall s, fst (login_user o t) = Returned s ->
                       s = no_sample /\ snd (login_user o t) = bus_id_cleared t))
  /\ (forall (st : Z) (body : option json) (t : BusTracker),
         st <> 200 ->
         vehicledata (Response st body) t = (Returned no_sample, bus_id_cleared t)
         /\ recentvehicledata (Response st body) t
            = (Returned no_sample, bus_id_cleared t)).
Proof.
  split; [| split].
  - intros o t. split.
    + destruct (vehicledata_frame o t) as [-> | ->]; reflexivity.
    + destruct (recentvehicledata_frame o t) as [-> | ->]; reflexivity.
  - intros o t H.
    destruct (login_user_not_active o t H) as [-> | [e ->]]; cbn [fst snd].
    + split; [reflexivity |]. intros s Hs. inversion Hs. split; reflexivity.
    + split; [reflexivity |]. intros s Hs. discriminate.
  - intros st body t Hst.
    unfold vehicledata, recentvehicledata. unfold_M. unfold post. cbn [fst snd].
    apply Z.eqb_neq in Hst. rewrite Hst. split; reflexivity.
Qed.

(** [session_fields_kept] on a login answered with status 503, after an
    earlier login had filled the session. *)
Lemma session_fields_kept_witness :
  session_info (snd (login_user (Response 503 None) Samples.tracker_far))
  = mkSessionInfo (JStr "sid-1") (JStr "guid-1") (JStr "rec-1").
Proof.
  apply (proj1 (proj1 (proj2 session_fields_kept)
                  (Response 503 None) Samples.tracker_far eq_refl)).
Defined.

Lemma py_list_index_short {A : Type} (l : list A) :
  (List.length l < 2)%nat -> py_list_index l 1 = Raised IndexError.
Proof.
  intros Hl. destruct l as [| x [| y l]]; [reflexivity | reflexivity |].
  cbn [List.length] in Hl. lia.
Qed.


(** C3, where the code departs from it. On a 200 response whose [BusData]
    history has fewer than two entries, [recentvehicledata] indexes the list
    at 1 all the same: [IndexError] leaves the call, no empty result is
    returned and [bus_id] is not cleared. *)
Theorem recentvehicledata_short_history
    (d : list (string * json)) (history : list json) (t : BusTracker) :
  dict_lookup "BusData" d = Some (JArr history) ->
  (List.length history < 2)%nat ->
  recentvehicledata (Response 200 (Some (JObj d))) t = (Raised IndexError, t).
Proof.
  intros Hd Hlen. unfold recentvehicledata. unfold_M.
  unfold post, response_json. cbn [fst snd Z.eqb Pos.eqb].
  rewrite (dict_lookup_some_nonempty _ _ _ Hd).
  unfold py_contains, py_get. rewrite Hd.
  unfold py_getitem_int. rewrite (py_list_index_short _ Hlen). reflexivity.
Qed.

(** [recentvehicledata_short_history] on a history of one entry, the
    tracker holding a vehicle id: the id is still there afterwards. *)
Lemma recentvehicledata_short_history_witness :
  recentvehicledata Samples.recent_one_entry Samples.tracker_far
  = (Raised IndexError, Samples.tracker_far).
Proof.
  apply (recentvehicledata_short_history _ [ Samples.history_entry 90 ]).
  - reflexivity.
  - cbn [List.length]. lia.
Defined.



(** A response without a history: the empty result, [bus_id] cleared. *)
Lemma recentvehicledata_no_history (d : list (string * json)) (t : BusTracker) :
  dict_lookup "BusData" d = None ->
  recentvehicledata (Response 200 (Some (JObj d))) t
  = (Returned no_sample, bus_id_cleared t).
Proof.
  intros Hd. unfold recentvehicledata. unfold_M.
  unfold post, response_json. cbn [fst snd Z.eqb Pos.eqb].
  destruct (truthy (JObj d)); [| reflexivity].
  unfold py_contains. rewrite Hd. reflexivity.
Qed.

(** C5, where the code departs from it. [login_user] catches
    [RequestException], [KeyError] and [TypeError]; a payload whose first
    student is [null] makes [.get] raise [AttributeError], which leaves the
    call.  A payload with an active bus and a [null] route does the same
    after the session fields and [bus_id] have been written. *)
Theorem login_user_attribute_error :
  forall t : BusTracker,
    login_user Samples.login_null_student t = (Raised AttributeError, t)
    /\ login_user Samples.login_null_route t
       = (Raised AttributeError,
          mkBusTracker
            (mkSessionInfo (JStr "sid-1") (JStr "guid-1") (JStr "rec-1"))
            (mkBusInfo (JStr "bus-42") (route_number (bus_info t))
                       (stop_latitude (bus_info t)) (stop_longitude (bus_info t)))).
Proof. intros t. split; reflexivity. Qed.

(** X5. The rest of C5 holds: a failed transport, a 4xx or 5xx status, a body
    that is not JSON, a payload without students, without a matched bus or
    with the activity flag off all end in the empty result with [bus_id]
    cleared, and nothing else written. *)
Lemma login_user_empty_result (t : BusTracker) :
  login_user TransportFailure t = (Returned no_sample, bus_id_cleared t)
  /\ (forall st body, 400 <= st < 600 ->
        login_user (Response st body) t = (Returned no_sample, bus_id_cleared t))
  /\ (forall st, login_user (Response st None) t
                 = (Returned no_sample, bus_id_cleared t))
  /\ (forall st d, dict_lookup "Students" d = None ->
        login_user (Response st (Some (JObj d))) t
        = (Returned no_sample, bus_id_cleared t))
  /\ (forall st d stu rest,
        dict_lookup "Students" d = Some (JArr (JObj stu :: rest)) ->
        dict_lookup "MatchedBusData" stu = None ->
        login_user (Response st (Some (JObj d))) t
        = (Returned no_sample, bus_id_cleared t))
  /\ (forall st d stu rest bus,
        dict_lookup "Students" d = Some (JArr (JObj stu :: rest)) ->
        dict_lookup "MatchedBusData" stu = Some (JObj bus) ->
        dict_lookup "IsActive" bus = Some (JBool false) ->
        login_user (Response st (Some (JObj d))) t
        = (Returned no_sample, bus_id_cleared t)).
Proof.
  unfold login_user, login_user_try, first_student, bind. unfold_M.
  unfold post, raise_for_status, response_json, py_contains, py_getitem,
    py_getitem_int, py_get.
  split; [reflexivity |]. split; [| split; [| split; [| split]]].
  - intros st body Hst. cbn [fst snd].
    replace ((400 <=? st) && (st <? 600)) with true
      by (symmetry; apply andb_true_iff; split;
          [apply Z.leb_le | apply Z.ltb_lt]; lia).
    reflexivity.
  - intros st. cbn [fst snd]. destruct ((400 <=? st) && (st <? 600)); reflexivity.
  - intros st d Hd. cbn [fst snd]. rewrite Hd.
    destruct ((400 <=? st) && (st <? 600)); reflexivity.
  - intros st d stu rest Hd Hb. cbn [fst snd]. rewrite Hd. cbn. rewrite Hb.
    destruct ((400 <=? st) && (st <? 600)); reflexivity.
  - intros st d stu rest bus Hd Hb Hf. cbn [fst snd]. rewrite Hd. cbn. rewrite Hb.
    destruct bus as [| kv bus]; [discriminate |]. cbn [truthy negb]. rewrite Hf.
    destruct ((400 <=? st) && (st <? 600)); reflexivity.
Qed.

(** ** The polling loop *)

Lemma at_stop_true (d target : R) :
  (d < target)%R -> at_stop (Some d) target = true.
Proof.
  intros H. unfold at_stop.
  destruct (Rlt_dec d target); [reflexivity | contradiction].
Qed.

Lemma at_stop_false (d target : R) :
  (target <= d)%R -> at_stop (Some d) target = false.
Proof.
  intros H. unfold at_stop. destruct (Rlt_dec d target); [lra | reflexivity].
Qed.

(** An iteration that finds the bus within the target distance ends the
    run there: no call, no sleep, the answers left as they are. *)
Lemma track_loop_at_stop (target : R) (answers : list http_outcome)
    (s : sample) (t : BusTracker) (d : R) :
  distance_to_target t s = Returned (Some d) -> (d < target)%R ->
  track_loop target answers s t = mkRun (Finished tt) t [EvAtStop] answers.
Proof.
  intros Hd Hlt.
  destruct answers; cbn [track_loop]; rewrite Hd, (at_stop_true _ _ Hlt);
    reflexivity.
Qed.

(** Any other iteration sleeps 33 seconds, calls [vehicledata] and goes
    round with what the call returned. *)
Lemma track_loop_poll (target : R) (o : http_outcome) (rest : list http_outcome)
    (s s' : sample) (t t' : BusTracker) (d : option R) :
  distance_to_target t s = Returned d -> at_stop d target = false ->
  vehicledata o t = (Returned s', t') ->
  track_loop target (o :: rest) s t
  = after [EvSleep 33; EvVehicleData (bus_id (bus_info t))]
          (track_loop target rest s' t').
Proof.
  intros Hd Hn Hv. cbn [track_loop]. rewrite Hd, Hn, Hv. reflexivity.
Qed.

Lemma track_loop_blocked (target : R) (s : sample) (t : BusTracker) (d : option R) :
  distance_to_target t s = Returned d -> at_stop d target = false ->
  track_loop target [] s t
  = mkRun Blocked t [EvSleep 33; EvVehicleData (bus_id (bus_info t))] [].
Proof. intros Hd Hn. cbn [track_loop]. rewrite Hd, Hn. reflexivity. Qed.

Lemma track_loop_raises (target : R) (o : http_outcome) (rest : list http_outcome)
    (s : sample) (t t' : BusTracker) (d : option R) (e : exn) :
  distance_to_target t s = Returned d -> at_stop d target = false ->
  vehicledata o t = (Raised e, t') ->
  track_loop target (o :: rest) s t
  = mkRun (Failed e) t' [EvSleep 33; EvVehicleData (bus_id (bus_info t))] rest.
Proof. intros Hd Hn Hv. cbn [track_loop]. rewrite Hd, Hn, Hv. reflexivity. Qed.

(** Once in its [while True], [track_bus] never logs in and never sleeps
    300 seconds, whatever the network answers. *)
Lemma track_loop_no_login (target : R) (answers : list http_outcome) :
  forall (s : sample) (t : BusTracker),
    ~ In EvLogin (trace (track_loop target answers s t))
    /\ ~ In (EvSleep 300) (trace (track_loop target answers s t)).
Proof.
  induction answers as [| o rest IH]; intros s t; cbn [track_loop].
  - destruct (distance_to_target t s) as [d | e]; cbn [trace]; [| not_in_trace].
    destruct (at_stop d target); cbn [trace]; not_in_trace.
  - destruct (distance_to_target t s) as [d | e]; cbn [trace]; [| not_in_trace].
    destruct (at_stop d target); cbn [trace]; [not_in_trace |].
    destruct (vehicledata o t) as [[s' | e] t']; unfold after; cbn [trace app];
      [| not_in_trace].
    destruct (IH s' t') as [H1 H2]. not_in_trace.
Qed.

Section Scenarios.

Import GeoUtils.
Local Open Scope R_scope.

(** Bus at (0, 0), stop at (0.0007, 0): 6371000 * 0.0007 * pi / 180 meters,
    about 77.8. *)
Lemma distance_near :
  distance_to_target Samples.tracker_near Samples.sample_origin
  = Returned (Some (6371000 * radians (7 / 10000))).
Proof.
  unfold distance_to_target, Samples.tracker_near, Samples.sample_origin.
  cbn [bus_info stop_latitude stop_longitude is_not_None andb].
  unfold haversine_distance_py, py_number, bind.
  rewrite haversine_distance_meridian.
  - do 3 f_equal. unfold Q2R, radians. cbn [Qnum Qden]. field.
  - unfold Q2R, radians. cbn [Qnum Qden].
    pose proof PI_RGT_0. pose proof PI_4. split; lra.
Qed.

Lemma distance_near_lt : 6371000 * radians (7 / 10000) < 82.
Proof. unfold radians. pose proof PI_lt_33_10. lra. Qed.

(** Bus at (0, 0), stop at (0.0045, 0): about 500 meters. *)
Lemma distance_far :
  distance_to_target Samples.tracker_far Samples.sample_origin
  = Returned (Some (6371000 * radians (45 / 10000))).
Proof.
  unfold distance_to_target, Samples.tracker_far, Samples.sample_origin.
  cbn [bus_info stop_latitude stop_longitude is_not_None andb].
  unfold haversine_distance_py, py_number, bind.
  rewrite haversine_distance_meridian.
  - do 3 f_equal. unfold Q2R, radians. cbn [Qnum Qden]. field.
  - unfold Q2R, radians. cbn [Qnum Qden].
    pose proof PI_RGT_0. pose proof PI_4. split; lra.
Qed.

Lemma distance_far_ge : 82 <= 6371000 * radians (45 / 10000).
Proof. unfold radians. pose proof PI_gt_2. lra. Qed.

End Scenarios.



(** C2, where the code departs from it. The loop of [track_bus] holds no
    login: once [check_bus_status] has returned, no answer of the network
    brings a login or a 300-second sleep back.  On the scenario of the
    specification (bus 500 meters out, then [IsActive: false]) the loop goes
    on calling [vehicledata] every 33 seconds, now with the vehicle id
    [None]; and a transport failure of [vehicledata] ends the run with the
    exception. *)
Theorem track_loop_never_logs_in_again :
  (forall (target : R) (answers : list http_outcome) (s : sample) (t : BusTracker),
      ~ In EvLogin (trace (track_loop target answers s t))
      /\ ~ In (EvSleep 300) (trace (track_loop target answers s t)))
  /\ main_track_bus [Samples.login_far; Samples.vehicle_inactive;
                     Samples.vehicle_inactive]
     = mkRun Blocked (bus_id_cleared Samples.tracker_far)
         [EvLogin;
          EvSleep 33; EvVehicleData (JStr "bus-42");
          EvSleep 33; EvVehicleData JNull;
          EvSleep 33; EvVehicleData JNull]
         []
  /\ main_track_bus [Samples.login_far; TransportFailure; Samples.login_far]
     = mkRun (Failed ConnectionError) Samples.tracker_far
         [EvLogin; EvSleep 33; EvVehicleData (JStr "bus-42")]
         [Samples.login_far].
Proof.
  split; [| split].
  - intros target answers s t. apply track_loop_no_login.
  - unfold main_track_bus, track_bus.
    change (check_bus_status
              [Samples.login_far; Samples.vehicle_inactive; Samples.vehicle_inactive]
              BusTracker_init)
      with (mkRun (Finished Samples.sample_origin) Samples.tracker_far [EvLogin]
              [Samples.vehicle_inactive; Samples.vehicle_inactive]).
    cbn [outcome tracker trace unread].
    rewrite (track_loop_poll _ Samples.vehicle_inactive _ _ no_sample _
               (bus_id_cleared Samples.tracker_far)
               _ distance_far (at_stop_false _ _ distance_far_ge) eq_refl).
    rewrite (track_loop_poll _ Samples.vehicle_inactive _ no_sample no_sample
               (bus_id_cleared Samples.tracker_far)
               (bus_id_cleared Samples.tracker_far)
               None eq_refl eq_refl eq_refl).
    rewrite (track_loop_blocked _ no_sample (bus_id_cleared Samples.tracker_far)
               None eq_refl eq_refl).
    reflexivity.
  - unfold main_track_bus, track_bus.
    change (check_bus_status
              [Samples.login_far; TransportFailure; Samples.login_far]
              BusTracker_init)
      with (mkRun (Finished Samples.sample_origin) Samples.tracker_far [EvLogin]
              [TransportFailure; Samples.login_far]).
    cbn [outcome tracker trace unread].
    rewrite (track_loop_raises _ TransportFailure _ _ _ Samples.tracker_far _ ConnectionError
               distance_far (at_stop_false _ _ distance_far_ge) eq_refl).
    reflexivity.
Qed.

(** X6. The loop returns in one way only: the last thing it did was to
    announce the arrival. *)
Lemma track_loop_returns_at_stop (target : R) (answers : list http_outcome) :
  forall (s : sample) (t : BusTracker),
    outcome (track_loop target answers s t) = Finished tt ->
    exists evs, trace (track_loop target answers s t) = (evs ++ [EvAtStop])%list.
Proof.
  induction answers as [| o rest IH]; intros s t; cbn [track_loop];
    destruct (distance_to_target t s) as [d | e]; cbn [outcome trace];
    try discriminate;
    destruct (at_stop d target); cbn [outcome trace]; try discriminate;
    try (intros _; exists []; reflexivity).
  destruct (vehicledata o t) as [[s' | e] t']; unfold after;
    cbn [outcome trace]; try discriminate.
  intros H. destruct (IH s' t' H) as [evs Hevs]. rewrite Hevs.
  exists ([EvSleep 33; EvVehicleData (bus_id (bus_info t))] ++ evs)%list.
  rewrite app_assoc. reflexivity.
Qed.

Lemma track_loop_returns_at_stop_witness :
  exists evs,
    trace (track_loop 82 [Samples.vehicle_inactive] Samples.sample_origin
             Samples.tracker_near)
    = (evs ++ [EvAtStop])%list.
Proof.
  apply (track_loop_returns_at_stop 82 [Samples.vehicle_inactive]
           Samples.sample_origin Samples.tracker_near).
  rewrite (track_loop_at_stop _ _ _ _ _ distance_near distance_near_lt).
  reflexivity.
Defined.

(** X7. [check_bus_status] has no bound on its retries: however many logins in
    a row come back empty, each is followed by a sleep of 300 seconds and
    the next login. *)
Lemma check_bus_status_retries (failed rest : list http_outcome) :
  forall t : BusTracker,
    Forall (fun o => forall t', login_user o t' = (Returned no_sample, bus_id_cleared t'))
           failed ->
    failed <> [] ->
    check_bus_status (failed ++ rest)%list t
    = after (flat_map (fun _ => [EvLogin; EvSleep 300]) failed)
            (check_bus_status rest (bus_id_cleared t)).
Proof.
  induction failed as [| o failed IH]; intros t Hall Hne; [contradiction |].
  inversion Hall as [| o' l Ho Hrest]; subst.
  cbn [app check_bus_status flat_map]. rewrite Ho.
  cbn [not_running no_sample bus_id_cleared bus_info bus_id truthy negb orb].
  destruct failed as [| o2 failed'].
  - cbn [app flat_map]. reflexivity.
  - rewrite (IH (bus_id_cleared t) Hrest) by discriminate.
    unfold after. cbn [outcome tracker trace unread app]. reflexivity.
Qed.

Lemma check_bus_status_retries_witness :
  check_bus_status
    ([TransportFailure; Response 503 None; TransportFailure] ++ [Samples.login_far])%list
    BusTracker_init
  = after [EvLogin; EvSleep 300; EvLogin; EvSleep 300; EvLogin; EvSleep 300]
          (check_bus_status [Samples.login_far] (bus_id_cleared BusTracker_init)).
Proof.
  apply (check_bus_status_retries
           [TransportFailure; Response 503 None; TransportFailure]
           [Samples.login_far] BusTracker_init).
  - repeat constructor.
  - discriminate.
Defined.

(** ** The older script *)

(** X1. The loop of the older [track_bus] has no way out: a run on any answers
    is still going or has raised, it has not returned. *)
Lemma legacy_track_bus_never_returns (target : R) (answers : list http_outcome) :
  forall (c : Legacy.call) (t : BusTracker),
    outcome (Legacy.track_from c target answers t) <> Finished tt.
Proof.
  induction answers as [| o rest IH]; intros c t; cbn [Legacy.track_from].
  - discriminate.
  - destruct (Legacy.make_call c o t) as [[s | e] t']; [| discriminate].
    destruct (not_running t' s).
    + apply IH.
    + destruct (Legacy.report c target t' s); [apply IH | discriminate].
Qed.

(** X2. In the older script a [vehicledata] call that comes back without a
    running bus is followed by a sleep of 300 seconds and a login. *)
Lemma legacy_logs_in_again (target : R) (o : http_outcome)
    (rest : list http_outcome) (s : sample) (t t' : BusTracker) :
  vehicledata o t = (Returned s, t') -> not_running t' s = true ->
  exists r : run unit,
    Legacy.track_from Legacy.VehicleData target (o :: rest) t
    = after [EvVehicleData (bus_id (bus_info t)); EvSleep 300; EvLogin] r.
Proof.
  intros Hv Hn. cbn [Legacy.track_from Legacy.make_call Legacy.call_event].
  rewrite Hv, Hn.
  destruct rest as [| o' rest']; cbn [Legacy.track_from Legacy.call_event].
  - exists (mkRun Blocked t' [] []). reflexivity.
  - destruct (Legacy.make_call (Legacy.Login true) o' t') as [[s' | e] t''].
    + destruct (not_running t'' s').
      * eexists (after [EvSleep 300] _). unfold after. cbn [trace app outcome tracker unread].
        reflexivity.
      * destruct (Legacy.report (Legacy.Login true) target t'' s') as [printed | e].
        -- eexists (after (printed ++ [EvSleep 33]) _). unfold after.
           cbn [trace app outcome tracker unread]. reflexivity.
        -- exists (mkRun (Failed e) t'' [] rest'). reflexivity.
    + exists (mkRun (Failed e) t'' [] rest'). reflexivity.
Qed.

Lemma legacy_logs_in_again_witness :
  exists r : run unit,
    Legacy.track_from Legacy.VehicleData 82 [Samples.vehicle_inactive; Samples.login_far]
      Samples.tracker_far
    = after [EvVehicleData (JStr "bus-42"); EvSleep 300; EvLogin] r.
Proof.
  apply (legacy_logs_in_again 82 Samples.vehicle_inactive [Samples.login_far]
           no_sample Samples.tracker_far (bus_id_cleared Samples.tracker_far)).
  - reflexivity.
  - reflexivity.
Defined.

(** ** haversine_distance on IEEE doubles *)

Section Doubles.

Import PrimFloat.
Local Open Scope float_scope.

(** C9, where the code departs from it. In exact arithmetic [1 - a] is
    never negative ([haversine_a_range]); in binary64 it can be. From
    (8, -180) to (-8, 0), two points opposite each other on the globe, the
    two terms of [a] round to 0.019369152030840567 and 0.9806308479691596,
    their sum to 1.0000000000000002, and [math.sqrt(1 - a)] raises
    [ValueError]. *)
Theorem haversine_distance_binary64_domain_error (m : Binary64.libm) :
  Binary64.rounds_correctly_here m ->
  Binary64.haversine_a m 8 (-180) (-8) 0 = 0x1.0000000000001p+0
  /\ Binary64.haversine_distance m 8 (-180) (-8) 0 = Raised ValueError.
Proof.
  intros (Hs & Hc & Hc' & Hq & Hp & Hp1).
  assert (Ha : Binary64.haversine_a m 8 (-180) (-8) 0 = 0x1.0000000000001p+0).
  { unfold Binary64.haversine_a. cbv zeta.
    change (div (Binary64.radians (sub (-8) 8)) 2)
      with (opp Binary64.rad8).
    change (div (Binary64.radians (sub 0 (-180))) 2)
      with Binary64.half_pi.
    change (Binary64.radians 8) with Binary64.rad8.
    change (Binary64.radians (-8)) with (opp Binary64.rad8).
    rewrite Hs, Hc, Hc', Hq, Hp, Hp1. reflexivity. }
  split; [exact Ha |].
  unfold Binary64.haversine_distance. cbv zeta. rewrite Ha. reflexivity.
Qed.

(** [haversine_distance_binary64_domain_error] for the C library given as a
    table. *)
Lemma haversine_distance_binary64_domain_error_witness :
  Binary64.haversine_distance Binary64.table_libm 8 (-180) (-8) 0
  = Raised ValueError.
Proof.
  apply (proj2 (haversine_distance_binary64_domain_error Binary64.table_libm
                  (conj eq_refl (conj eq_refl (conj eq_refl
                     (conj eq_refl (conj eq_refl eq_refl))))))).
Defined.

End Doubles.
(** * The rest of the program *)

(** ** Scans and the directory of schools *)

(** X8. Once its request is sent, [student_scans] never raises for an
    answer that carries a JSON body: with status 200 it returns what sits at
    [data["Students"][0]["StudentScans"][0]["Scans"]] when every step of
    that path is there, and the empty list otherwise, also when [data] or
    a step is of the wrong type; with any other status it returns the
    empty list.  It lets through what it has no handler for: the failure
    of the transport, and a body of status 200 that is no JSON.  The
    tracker is left as it was in every case. *)
Theorem student_scans_degrades (t : BusTracker) :
  (forall st data,
     student_scans (Response st (Some data)) t
     = (Returned (if st =? 200
                  then match scans_at data with
                       | Some scans => scans
                       | None => JArr []
                       end
                  else JArr []), t))
  /\ (forall st, st <> 200 ->
        student_scans (Response st None) t = (Returned (JArr []), t))
  /\ student_scans TransportFailure t = (Raised ConnectionError, t)
  /\ student_scans (Response 200 None) t = (Raised JSONDecodeError, t).
Proof.
  split; [| split; [| split; reflexivity ]];
    [| intros st Hst; apply Z.eqb_neq in Hst;
       unfold student_scans, bind, post; unfold_M; rewrite Hst; reflexivity ].
  intros st data.
  unfold student_scans, scans_path, scans_at, bind, post, response_json,
    py_getitem, py_getitem_int. unfold_M.
  destruct (st =? 200); [| reflexivity].
  destruct data as [| b | q | s | l | d]; cbn; try reflexivity.
  destruct (dict_lookup "Students" d) as [students |]; cbn; [| reflexivity].
  destruct students as [| b | q | s | l | d']; cbn; try reflexivity.
  - destruct s as [| c s]; reflexivity.
  - destruct l as [| student l]; cbn; [reflexivity |].
    destruct student as [| b | q | s | l' | stu]; cbn; try reflexivity.
    destruct (dict_lookup "StudentScans" stu) as [sc |]; cbn; [| reflexivity].
    destruct sc as [| b | q | s | l' | d']; cbn; try reflexivity.
    + destruct s as [| c s]; reflexivity.
    + destruct l' as [| f l']; cbn; [reflexivity |].
      destruct f as [| b | q | s | l'' | f]; cbn; try reflexivity.
      destruct (dict_lookup "Scans" f); reflexivity.
Qed.

(** X9. [get_all_school_list] returns the empty list for every
    [requests.RequestException]: a failed transport, a status from 400 to
    599, a body that is no JSON.  For an object it returns what is under
    ["Clients"], and the empty list when there is no such key.  The one
    exception that leaves it is a [TypeError], and only for a body that
    is JSON but no object. *)
Theorem get_all_school_list_outcomes :
  SchoolService.get_all_school_list TransportFailure = Returned (JArr [])
  /\ (forall st body, 400 <= st < 600 ->
        SchoolService.get_all_school_list (Response st body) = Returned (JArr []))
  /\ (forall st, SchoolService.get_all_school_list (Response st None)
                 = Returned (JArr []))
  /\ (forall st d, ~ 400 <= st < 600 ->
        SchoolService.get_all_school_list (Response st (Some (JObj d)))
        = Returned (match dict_lookup "Clients" d with
                    | Some clients => clients
                    | None => JArr []
                    end))
  /\ (forall o e, SchoolService.get_all_school_list o = Raised e ->
        e = TypeError
        /\ exists st data, o = Response st (Some data) /\ is_object data = false).
Proof.
  unfold SchoolService.get_all_school_list, SchoolService.get, post,
    raise_for_status, response_json, py_contains, py_getitem, bind.
  split; [reflexivity |]. split; [| split; [| split]].
  - intros st body Hst. cbn [fst snd].
    replace ((400 <=? st) && (st <? 600)) with true
      by (symmetry; apply andb_true_iff; split;
          [apply Z.leb_le | apply Z.ltb_lt]; lia).
    reflexivity.
  - intros st. cbn [fst snd]. destruct ((400 <=? st) && (st <? 600)); reflexivity.
  - intros st d Hst. cbn [fst snd].
    replace ((400 <=? st) && (st <? 600)) with false.
    + destruct (dict_lookup "Clients" d); reflexivity.
    + symmetry. apply andb_false_iff.
      destruct (Z.leb_spec 400 st); [right | left; reflexivity].
      apply Z.ltb_ge. lia.
  - intros o e. destruct o as [| st [data |]]; cbn [fst snd]; try discriminate.
    + destruct ((400 <=? st) && (st <? 600)); cbn; try discriminate.
      destruct data as [| b | q | s | l | d]; cbn.
      * intros H; inversion H. split; [reflexivity |]. eauto.
      * intros H; inversion H. split; [reflexivity |]. eauto.
      * intros H; inversion H. split; [reflexivity |]. eauto.
      * destruct (is_substring "Clients" s); cbn; intros H; inversion H.
        split; [reflexivity |]. eauto.
      * destruct (existsb (json_is_str "Clients") l); cbn; intros H; inversion H.
        split; [reflexivity |]. eauto.
      * destruct (dict_lookup "Clients" d); cbn; discriminate.
    + destruct ((400 <=? st) && (st <? 600)); cbn; discriminate.
Qed.

(** X10. [get_closest_school_list] has no handler: on status 200 and an
    object it agrees with [get_all_school_list]; any other status gives
    the empty list whatever the body; the failure of the transport, a
    body that is no JSON and the [AttributeError] of [data.get] on a body
    that is no object leave it. *)
Theorem get_closest_school_list_outcomes :
  (forall st d, st = 200 ->
     SchoolService.get_closest_school_list (Response st (Some (JObj d)))
     = SchoolService.get_all_school_list (Response st (Some (JObj d))))
  /\ (forall st body, st <> 200 ->
        SchoolService.get_closest_school_list (Response st body) = Returned (JArr []))
  /\ SchoolService.get_closest_school_list TransportFailure = Raised ConnectionError
  /\ SchoolService.get_closest_school_list (Response 200 None) = Raised JSONDecodeError
  /\ (forall data, is_object data = false ->
        SchoolService.get_closest_school_list (Response 200 (Some data))
        = Raised AttributeError).
Proof.
  unfold SchoolService.get_closest_school_list, SchoolService.get_all_school_list,
    SchoolService.get, post, raise_for_status, response_json, py_contains,
    py_getitem, py_get, bind.
  split; [| split; [| split; [| split]]].
  - intros st d ->. cbn. destruct (dict_lookup "Clients" d); reflexivity.
  - intros st body Hst. cbn [fst snd]. apply Z.eqb_neq in Hst. rewrite Hst. reflexivity.
  - reflexivity.
  - reflexivity.
  - intros data H. destruct data; try reflexivity. discriminate.
Qed.
(** ** Choosing a school *)

Section Select.

Variable int_of_str : string -> option Z.

Lemma py_list_index_nth {A : Type} (l : list A) (i : Z) :
  0 <= i < Z.of_nat (List.length l) ->
  exists x, nth_error l (Z.to_nat i) = Some x /\ py_list_index l i = Returned x.
Proof.
  intros Hi. unfold py_list_index. cbv zeta.
  assert (H0 : (i <? 0) = false) by (apply Z.ltb_ge; lia).
  assert (H1 : (Z.of_nat (List.length l) <=? i) = false) by (apply Z.leb_gt; lia).
  rewrite H0, H1, H0. cbn [orb].
  destruct (nth_error l (Z.to_nat i)) as [x |] eqn:Hn.
  - exists x. split; reflexivity.
  - apply nth_error_None in Hn. lia.
Qed.

Lemma select_loop_skips (l : list json) (skipped inputs : list string) :
  Forall (invalid_choice int_of_str (List.length l)) skipped ->
  select_loop int_of_str (JArr l) (skipped ++ inputs)
  = select_loop int_of_str (JArr l) inputs.
Proof.
  induction 1 as [| line skipped Hline _ IH]; [reflexivity |].
  cbn [app select_loop]. unfold invalid_choice in Hline.
  destruct (int_of_str line) as [m |]; [| exact IH].
  cbn [SchoolService.py_len bind].
  destruct (0 <=? m - 1) eqn:H0; [| exact IH].
  destruct (m - 1 <? Z.of_nat (List.length l)) eqn:H1; [| exact IH].
  apply Z.leb_le in H0. apply Z.ltb_lt in H1. lia.
Qed.

Lemma select_loop_answered (l : list json) (inputs : list string) :
  forall (info : list (string * json)) (rest : list string),
    select_loop int_of_str (JArr l) inputs = Answered info rest ->
    exists (skipped : list string) (line : string) (n : nat) (school : json),
      inputs = (skipped ++ line :: rest)%list
      /\ Forall (invalid_choice int_of_str (List.length l)) skipped
      /\ int_of_str line = Some (Z.of_nat n + 1)
      /\ nth_error l n = Some school
      /\ SchoolService.school_info school = Returned info.
Proof.
  induction inputs as [| line inputs IH]; intros info rest H; [discriminate |].
  cbn [select_loop] in H.
  destruct (int_of_str line) as [m |] eqn:Hm.
  - cbn [SchoolService.py_len bind] in H.
    destruct (0 <=? m - 1) eqn:H0.
    + destruct (m - 1 <? Z.of_nat (List.length l)) eqn:H1.
      * apply Z.leb_le in H0. apply Z.ltb_lt in H1.
        destruct (py_list_index_nth l (m - 1) (conj H0 H1)) as [school [Hn Hx]].
        unfold py_getitem_int in H. rewrite Hx in H. cbn [bind] in H.
        destruct (SchoolService.school_info school) as [i |] eqn:Hi;
          [| discriminate].
        inversion H; subst.
        exists [], line, (Z.to_nat (m - 1)), school.
        repeat split; auto. rewrite Hm. f_equal. lia.
      * destruct (IH _ _ H) as (sk & ln & n & sc & -> & Hsk & Hln & Hn & Hi).
        exists (line :: sk), ln, n, sc. repeat split; auto.
        constructor; [| exact Hsk]. unfold invalid_choice. rewrite Hm.
        apply Z.ltb_ge in H1. lia.
    + destruct (IH _ _ H) as (sk & ln & n & sc & -> & Hsk & Hln & Hn & Hi).
      exists (line :: sk), ln, n, sc. repeat split; auto.
      constructor; [| exact Hsk]. unfold invalid_choice. rewrite Hm.
      apply Z.leb_gt in H0. lia.
  - destruct (IH _ _ H) as (sk & ln & n & sc & -> & Hsk & Hln & Hn & Hi).
    exists (line :: sk), ln, n, sc. repeat split; auto.
    constructor; [| exact Hsk]. unfold invalid_choice. rewrite Hm. exact I.
Qed.

Lemma listing_needs_array (school_list : json) :
  truthy school_list = true ->
  (schools <- SchoolService.py_iter school_list ;;
   SchoolService.list_accounts schools)%py = Returned tt ->
  exists l, school_list = JArr l.
Proof.
  intros Ht H. destruct school_list as [| b | q | s | l | d]; try discriminate.
  - destruct s as [| c s]; [discriminate |]. discriminate.
  - eauto.
  - destruct d as [| [k v] d]; [discriminate |]. discriminate.
Qed.

Lemma select_school_answer (school_list : json) (inputs : list string)
    (info : list (string * json)) (rest : list string) :
  select_school int_of_str school_list inputs = Answered (Some info) rest ->
  exists (l : list json) (skipped : list string) (line : string) (n : nat)
         (school : json),
    school_list = JArr l
    /\ inputs = (skipped ++ line :: rest)%list
    /\ Forall (invalid_choice int_of_str (List.length l)) skipped
    /\ int_of_str line = Some (Z.of_nat n + 1)
    /\ nth_error l n = Some school
    /\ SchoolService.school_info school = Returned info.
Proof.
  unfold select_school. intros H.
  destruct (truthy school_list) eqn:Ht; cbn [negb] in H; [| discriminate].
  destruct (schools <- SchoolService.py_iter school_list ;;
            SchoolService.list_accounts schools)%py as [[] |] eqn:Hl;
    [| discriminate].
  destruct (listing_needs_array _ Ht Hl) as [l ->].
  destruct (select_loop int_of_str (JArr l) inputs) as [i r | |] eqn:Hs;
    try discriminate.
  inversion H; subst.
  destruct (select_loop_answered l inputs _ _ Hs)
    as (sk & ln & n & sc & Hin & Hsk & Hln & Hn & Hi).
  exists l, sk, ln, n, sc. repeat split; assumption.
Qed.

Lemma school_info_fields (school : json) (info : list (string * json)) :
  SchoolService.school_info school = Returned info ->
  exists d serial url lat lon,
    school = JObj d
    /\ dict_lookup "Serial" d = Some serial
    /\ dict_lookup "ServiceUrl" d = Some url
    /\ dict_lookup "Latitude" d = Some lat
    /\ dict_lookup "Longitude" d = Some lon
    /\ info = [ ("SchoolGUID", serial); ("ServiceUrl", url);
                ("SchoolLatitude", lat); ("SchoolLongitude", lon) ].
Proof.
  unfold SchoolService.school_info, py_getitem, bind. intros H.
  destruct school as [| b | q | s | l | d]; try discriminate.
  destruct (dict_lookup "Serial" d) as [serial |] eqn:H1; [| discriminate].
  destruct (dict_lookup "ServiceUrl" d) as [url |] eqn:H2; [| discriminate].
  destruct (dict_lookup "Latitude" d) as [lat |] eqn:H3; [| discriminate].
  destruct (dict_lookup "Longitude" d) as [lon |] eqn:H4; [| discriminate].
  inversion H. exists d, serial, url, lat, lon. repeat split; assumption || reflexivity.
Qed.

(** X11. When [select_school] returns a dictionary, the list of schools
    is a JSON array, the lines read are some lines that are no ordinal of
    the list (no number, or one outside [1 .. n]) and then one line that
    is the ordinal [n + 1] of a school of the list; the lines after it
    are left unread; and the dictionary holds that school's
    ["Serial"], ["ServiceUrl"], ["Latitude"] and ["Longitude"] under the
    keys [SchoolGUID], [ServiceUrl], [SchoolLatitude] and
    [SchoolLongitude], in that order. *)
Theorem select_school_picks_listed (school_list : json) (inputs : list string)
    (info : list (string * json)) (rest : list string) :
  select_school int_of_str school_list inputs = Answered (Some info) rest ->
  exists (l : list json) (skipped : list string) (line : string) (n : nat)
         (d : list (string * json)) (serial url lat lon : json),
    school_list = JArr l
    /\ inputs = (skipped ++ line :: rest)%list
    /\ Forall (invalid_choice int_of_str (List.length l)) skipped
    /\ int_of_str line = Some (Z.of_nat n + 1)
    /\ nth_error l n = Some (JObj d)
    /\ dict_lookup "Serial" d = Some serial
    /\ dict_lookup "ServiceUrl" d = Some url
    /\ dict_lookup "Latitude" d = Some lat
    /\ dict_lookup "Longitude" d = Some lon
    /\ info = [ ("SchoolGUID", serial); ("ServiceUrl", url);
                ("SchoolLatitude", lat); ("SchoolLongitude", lon) ].
Proof.
  intros H.
  destruct (select_school_answer _ _ _ _ H)
    as (l & sk & ln & n & sc & Hl & Hin & Hsk & Hln & Hn & Hi).
  destruct (school_info_fields _ _ Hi)
    as (d & serial & url & lat & lon & -> & H1 & H2 & H3 & H4 & Hinfo).
  exists l, sk, ln, n, d, serial, url, lat, lon.
  repeat split; assumption.
Qed.

(** X12. The other way round: over a list whose schools all have an
    ["Account"], [select_school] passes over the lines that are no
    ordinal of the list, takes the first line that is one, returns the
    dictionary of that school and leaves the remaining lines unread. *)
Theorem select_school_takes_valid_line (l : list json) (skipped : list string)
    (line : string) (rest : list string) (n : nat) (school : json)
    (info : list (string * json)) :
  SchoolService.list_accounts l = Returned tt ->
  Forall (invalid_choice int_of_str (List.length l)) skipped ->
  int_of_str line = Some (Z.of_nat n + 1) ->
  nth_error l n = Some school ->
  SchoolService.school_info school = Returned info ->
  select_school int_of_str (JArr l) (skipped ++ line :: rest)
  = Answered (Some info) rest.
Proof.
  intros Hacc Hsk Hline Hn Hinfo.
  assert (Hlen : (n < List.length l)%nat) by (apply nth_error_Some; congruence).
  unfold select_school.
  replace (truthy (JArr l)) with true by (destruct l; [cbn in Hlen; lia | reflexivity]).
  cbn [negb SchoolService.py_iter bind]. rewrite Hacc.
  rewrite (select_loop_skips l _ _ Hsk).
  cbn [select_loop]. rewrite Hline. cbn [SchoolService.py_len bind].
  replace (0 <=? Z.of_nat n + 1 - 1) with true by (symmetry; apply Z.leb_le; lia).
  replace (Z.of_nat n + 1 - 1 <? Z.of_nat (List.length l)) with true
    by (symmetry; apply Z.ltb_lt; lia).
  unfold py_getitem_int.
  destruct (py_list_index_nth l (Z.of_nat n + 1 - 1)) as [x [Hx ->]]; [lia |].
  replace (Z.to_nat (Z.of_nat n + 1 - 1)) with n in Hx by lia.
  rewrite Hn in Hx. inversion Hx; subst. cbn [bind]. rewrite Hinfo. reflexivity.
Qed.

End Select.

(** The second school of [Setup.schools] is picked by the line ["2"],
    after three lines that are passed over. *)
Lemma select_school_takes_valid_line_witness :
  select_school decimal_int (JArr Setup.schools) [ "two"; "0"; "3"; "2"; "1" ]
  = Answered (Some Setup.southside_info) [ "1" ].
Proof.
  apply (select_school_takes_valid_line decimal_int Setup.schools
           [ "two"; "0"; "3" ] "2" [ "1" ] 1
           (Setup.school "Southside" "guid-s" "https://south.example/svc/")
           Setup.southside_info).
  - reflexivity.
  - repeat constructor; unfold invalid_choice; cbn; lia.
  - reflexivity.
  - reflexivity.
  - reflexivity.
Defined.

Lemma select_school_picks_listed_witness :
  exists (l : list json) (skipped : list string) (line : string) (n : nat)
         (d : list (string * json)) (serial url lat lon : json),
    JArr Setup.schools = JArr l
    /\ [ "two"; "0"; "3"; "2"; "1" ] = (skipped ++ line :: [ "1" ])%list
    /\ Forall (invalid_choice decimal_int (List.length l)) skipped
    /\ decimal_int line = Some (Z.of_nat n + 1)
    /\ nth_error l n = Some (JObj d)
    /\ dict_lookup "Serial" d = Some serial
    /\ dict_lookup "ServiceUrl" d = Some url
    /\ dict_lookup "Latitude" d = Some lat
    /\ dict_lookup "Longitude" d = Some lon
    /\ Setup.southside_info
       = [ ("SchoolGUID", serial); ("ServiceUrl", url);
           ("SchoolLatitude", lat); ("SchoolLongitude", lon) ].
Proof.
  apply (select_school_picks_listed decimal_int (JArr Setup.schools)
           [ "two"; "0"; "3"; "2"; "1" ] Setup.southside_info [ "1" ]).
  reflexivity.
Defined.

(** ** The configuration file *)

Section Text.

Lemma is_substring_char (c : ascii) (s : string) :
  is_substring (String c EmptyString) s = has_char c s.
Proof.
  induction s as [| b s IH]; [reflexivity |].
  cbn [is_substring is_prefix has_char].
  destruct (Ascii.eqb c b); cbn [orb].
  - destruct s; reflexivity.
  - exact IH.
Qed.

Lemma has_char_app (c : ascii) (s t : string) :
  has_char c (s ++ t) = has_char c s || has_char c t.
Proof.
  induction s as [| b s IH]; [reflexivity |].
  cbn [append has_char]. rewrite IH. apply orb_assoc.
Qed.

Lemma split_once_found (sep : ascii) (a b : string) :
  has_char sep a = false -> split_once sep (a ++ String sep b) = [a; b].
Proof.
  induction a as [| c a IH]; intros H; cbn [append split_once].
  - rewrite Ascii.eqb_refl. reflexivity.
  - cbn [has_char] in H. apply orb_false_iff in H as [Hc Ha].
    rewrite Ascii.eqb_sym, Hc, (IH Ha). reflexivity.
Qed.

Lemma split_once_has_char (sep : ascii) (s : string) :
  has_char sep s = true ->
  exists a b, s = a ++ String sep b /\ has_char sep a = false
              /\ split_once sep s = [a; b].
Proof.
  induction s as [| c s IH]; intros H; [discriminate |].
  cbn [has_char] in H. destruct (Ascii.eqb sep c) eqn:Hc.
  - apply Ascii.eqb_eq in Hc. subst c. exists EmptyString, s.
    repeat split. cbn [split_once]. rewrite Ascii.eqb_refl. reflexivity.
  - cbn [orb] in H. destruct (IH H) as (a & b & -> & Ha & Hs).
    exists (String c a), b. repeat split.
    + cbn [has_char]. rewrite Hc, Ha. reflexivity.
    + apply (split_once_found sep (String c a) b).
      cbn [has_char]. rewrite Hc, Ha. reflexivity.
Qed.

(** lstrip *)
Lemma lstrip_no_space (s : string) : starts_with_space s = false -> lstrip s = s.
Proof. destruct s as [| c s]; [reflexivity |]. cbn. intros ->. reflexivity. Qed.

Lemma lstrip_starts (s : string) : starts_with_space (lstrip s) = false.
Proof.
  induction s as [| c s IH]; [reflexivity |].
  cbn [lstrip]. destruct (is_space c) eqn:Hc; [exact IH |]. cbn. exact Hc.
Qed.

Lemma has_char_lstrip (c : ascii) (s : string) :
  has_char c (lstrip s) = true -> has_char c s = true.
Proof.
  induction s as [| b s IH]; [discriminate |].
  cbn [lstrip]. destruct (is_space b); [| auto].
  intros H. cbn [has_char]. rewrite (IH H). apply orb_true_r.
Qed.

Lemma has_char_lstrip_keep (c : ascii) (s : string) :
  is_space c = false -> has_char c (lstrip s) = has_char c s.
Proof.
  intros Hc. induction s as [| b s IH]; [reflexivity |].
  cbn [lstrip]. destruct (is_space b) eqn:Hb; [| reflexivity].
  rewrite IH. cbn [has_char].
  destruct (Ascii.eqb c b) eqn:E; [| reflexivity].
  apply Ascii.eqb_eq in E. congruence.
Qed.

(** rstrip *)
Lemma rstrip_cons (c : ascii) (s : string) :
  rstrip (String c s)
  = match rstrip s with
    | EmptyString => if is_space c then EmptyString else String c EmptyString
    | r => String c r
    end.
Proof. reflexivity. Qed.

Lemma rstrip_no_space (s : string) : ends_with_space s = false -> rstrip s = s.
Proof.
  induction s as [| c s IH]; [reflexivity |].
  intros H. rewrite rstrip_cons. destruct s as [| b s].
  - cbn in H. cbn. rewrite H. reflexivity.
  - rewrite IH by exact H. reflexivity.
Qed.

Lemma rstrip_ends (s : string) : ends_with_space (rstrip s) = false.
Proof.
  induction s as [| c s IH]; [reflexivity |].
  rewrite rstrip_cons. destruct (rstrip s) as [| b r] eqn:Hr.
  - destruct (is_space c) eqn:Hc; [reflexivity | cbn; exact Hc].
  - exact IH.
Qed.

Lemma rstrip_app_space (s : string) (c : ascii) :
  is_space c = true -> rstrip (s ++ String c EmptyString) = rstrip s.
Proof.
  intros Hc. induction s as [| b s IH].
  - cbn. rewrite Hc. reflexivity.
  - cbn [append]. rewrite !rstrip_cons, IH. reflexivity.
Qed.

Lemma has_char_rstrip (c : ascii) (s : string) :
  has_char c (rstrip s) = true -> has_char c s = true.
Proof.
  induction s as [| b s IH]; [discriminate |].
  rewrite rstrip_cons. cbn [has_char].
  destruct (rstrip s) as [| d r].
  - destruct (is_space b); [discriminate |]. cbn [has_char].
    rewrite orb_false_r. intros ->. reflexivity.
  - cbn [has_char]. intros H. apply orb_true_iff in H as [-> | H]; [reflexivity |].
    rewrite (IH H). apply orb_true_r.
Qed.

Lemma has_char_rstrip_keep (c : ascii) (s : string) :
  is_space c = false -> has_char c (rstrip s) = has_char c s.
Proof.
  intros Hc. induction s as [| b s IH]; [reflexivity |].
  rewrite rstrip_cons. cbn [has_char]. rewrite <- IH.
  destruct (rstrip s) as [| d r]; [| reflexivity].
  cbn [has_char]. rewrite orb_false_r.
  destruct (is_space b) eqn:Hb; [| cbn [has_char]; rewrite orb_false_r; reflexivity].
  cbn [has_char]. destruct (Ascii.eqb c b) eqn:E; [| reflexivity].
  apply Ascii.eqb_eq in E. congruence.
Qed.

Lemma starts_rstrip (s : string) :
  starts_with_space s = false -> starts_with_space (rstrip s) = false.
Proof.
  destruct s as [| c s]; [reflexivity |]. cbn [starts_with_space]. intros Hc.
  rewrite rstrip_cons. destruct (rstrip s); [rewrite Hc |]; cbn; auto.
Qed.

Lemma newline_only_last_tail (c : ascii) (s : string) :
  newline_only_last (String c s) = true -> newline_only_last s = true.
Proof.
  destruct s as [| b s]; [reflexivity |].
  cbn [newline_only_last]. intros H. apply andb_true_iff in H as [_ H]. exact H.
Qed.

Lemma newline_only_last_lstrip (s : string) :
  newline_only_last s = true -> newline_only_last (lstrip s) = true.
Proof.
  induction s as [| c s IH]; [reflexivity |].
  intros H. cbn [lstrip]. destruct (is_space c); [| exact H].
  apply IH, (newline_only_last_tail c), H.
Qed.

Lemma rstrip_no_newline (s : string) :
  newline_only_last s = true -> has_char newline (rstrip s) = false.
Proof.
  induction s as [| c s IH]; [reflexivity |].
  intros H. rewrite rstrip_cons. destruct s as [| b s].
  - cbn [rstrip]. destruct (is_space c) eqn:Hc; [reflexivity |].
    cbn [has_char]. rewrite orb_false_r.
    destruct (Ascii.eqb newline c) eqn:E; [| reflexivity].
    apply Ascii.eqb_eq in E. subst c. discriminate.
  - cbn [newline_only_last] in H. apply andb_true_iff in H as [Hc H].
    specialize (IH H).
    assert (Hn : Ascii.eqb newline c = false).
    { rewrite Ascii.eqb_sym. apply negb_true_iff, Hc. }
    destruct (rstrip (String b s)) as [| d r].
    + destruct (is_space c); [reflexivity |]. cbn [has_char]. rewrite Hn. reflexivity.
    + cbn [has_char] in *. rewrite Hn. exact IH.
Qed.

Lemma strip_no_newline (line : string) :
  newline_only_last line = true -> has_char newline (strip line) = false.
Proof. intros H. apply rstrip_no_newline, newline_only_last_lstrip, H. Qed.

Lemma strip_keeps_absent (c : ascii) (line : string) :
  has_char c line = false -> has_char c (strip line) = false.
Proof.
  intros H. destruct (has_char c (strip line)) eqn:E; [| reflexivity].
  apply has_char_rstrip, has_char_lstrip in E. congruence.
Qed.

Lemma strip_keeps_equals (line : string) :
  has_char "=" (strip line) = has_char "=" line.
Proof.
  unfold strip. rewrite has_char_rstrip_keep, has_char_lstrip_keep; reflexivity.
Qed.

Lemma strip_clean_ends (line : string) :
  starts_with_space (strip line) = false /\ ends_with_space (strip line) = false.
Proof.
  split; [apply starts_rstrip, lstrip_starts | apply rstrip_ends].
Qed.

Lemma string_app_assoc (a b c : string) : (a ++ b) ++ c = a ++ (b ++ c).
Proof. induction a as [| x a IH]; [reflexivity |]. cbn. rewrite IH. reflexivity. Qed.

Lemma starts_with_space_app (a b : string) :
  starts_with_space (a ++ String "=" b) = starts_with_space a.
Proof. destruct a; reflexivity. Qed.

Lemma ends_with_space_app (a b : string) :
  b <> EmptyString -> ends_with_space (a ++ b) = ends_with_space b.
Proof.
  intros Hb. induction a as [| c a IH]; [reflexivity |].
  cbn [append]. destruct (a ++ b) eqn:E.
  - destruct a; [cbn in E; congruence | discriminate].
  - cbn [ends_with_space]. exact IH.
Qed.

(** dict_set *)
Lemma dict_set_keys (k : string) (v : json) (d : list (string * json)) (k' : string) :
  In k' (map fst (dict_set k v d)) -> k' = k \/ In k' (map fst d).
Proof.
  induction d as [| [k0 v0] d IH]; cbn [dict_set map fst In].
  - intros [<- | []]. auto.
  - destruct (String.eqb k k0) eqn:E; cbn [map fst In].
    + intros [<- | H]; auto.
    + intros [<- | H]; auto. destruct (IH H); auto.
Qed.

Lemma dict_set_NoDup (k : string) (v : json) (d : list (string * json)) :
  NoDup (map fst d) -> NoDup (map fst (dict_set k v d)).
Proof.
  induction d as [| [k0 v0] d IH]; cbn [dict_set map fst]; intros H.
  - constructor; [intros [] | constructor].
  - inversion H as [| x l Hx Hl]; subst.
    destruct (String.eqb k k0) eqn:E; cbn [map fst].
    + apply String.eqb_eq in E. subst k0. constructor; assumption.
    + constructor; [| apply IH, Hl].
      intros Hin. destruct (dict_set_keys _ _ _ _ Hin) as [-> | Hin'].
      * rewrite String.eqb_refl in E. discriminate.
      * contradiction.
Qed.

Lemma dict_set_Forall (P : string * json -> Prop) (k : string) (v : json)
    (d : list (string * json)) :
  P (k, v) -> Forall P d -> Forall P (dict_set k v d).
Proof.
  intros Hk. induction 1 as [| [k0 v0] d H0 Hd IH]; cbn [dict_set].
  - constructor; [exact Hk | constructor].
  - destruct (String.eqb k k0); constructor; auto.
Qed.

Lemma dict_set_fresh (k : string) (v : json) (d : list (string * json)) :
  ~ In k (map fst d) -> dict_set k v d = (d ++ [(k, v)])%list.
Proof.
  induction d as [| [k0 v0] d IH]; cbn [dict_set map fst In app]; intros H.
  - reflexivity.
  - destruct (String.eqb k k0) eqn:E.
    + apply String.eqb_eq in E. subst. exfalso. auto.
    + rewrite IH by auto. reflexivity.
Qed.

(** load_line *)
Lemma load_line_clean (config : list (string * json)) (line : string) :
  newline_only_last line = true -> has_char carriage_return line = false ->
  clean_config config ->
  exists config', ConfigManager.load_line config line = Returned config'
                  /\ clean_config config'.
Proof.
  intros Hnl Hcr [Hnd Hall]. unfold ConfigManager.load_line.
  rewrite is_substring_char.
  destruct (has_char "=" line) eqn:Heq; [| exists config; split; [reflexivity | split; assumption]].
  rewrite <- strip_keeps_equals in Heq.
  destruct (split_once_has_char _ _ Heq) as (a & b & Hab & Ha & Hsplit).
  rewrite Hsplit. cbn [ConfigManager.unpack_pair bind fst snd].
  eexists. split; [reflexivity |].
  pose proof (strip_no_newline _ Hnl) as Hn.
  pose proof (strip_keeps_absent _ _ Hcr) as Hc.
  destruct (strip_clean_ends line) as [Hs He].
  rewrite Hab in Hn, Hc, Hs, He.
  rewrite has_char_app in Hn, Hc. cbn [has_char] in Hn, Hc.
  apply orb_false_iff in Hn as [Hna Hnb]. apply orb_false_iff in Hc as [Hca Hcb].
  apply orb_false_iff in Hnb as [_ Hnb]. apply orb_false_iff in Hcb as [_ Hcb].
  rewrite starts_with_space_app in Hs.
  split; [apply dict_set_NoDup, Hnd |].
  apply dict_set_Forall; [| exact Hall].
  cbn [fst snd]. split.
  - unfold clean_key. rewrite Ha, Hna, Hca, Hs. reflexivity.
  - destruct (String.eqb b "") eqn:Hb; [reflexivity |].
    unfold clean_value. rewrite Hb, Hnb, Hcb. cbn [negb andb].
    replace (a ++ String "=" b) with ((a ++ String "=" EmptyString) ++ b) in He.
    + rewrite ends_with_space_app in He; [rewrite He; reflexivity |].
      intros ->. discriminate.
    + rewrite string_app_assoc. reflexivity.
Qed.

(** universal_newlines and file_lines *)
Lemma universal_newlines_cons (c : ascii) (s : string) :
  universal_newlines (String c s)
  = if Ascii.eqb c carriage_return then
      match s with
      | String c' s' =>
          if Ascii.eqb c' newline then String newline (universal_newlines s')
          else String newline (universal_newlines s)
      | EmptyString => String newline EmptyString
      end
    else String c (universal_newlines s).
Proof. destruct s; reflexivity. Qed.

Lemma universal_newlines_no_cr_aux (s : string) :
  has_char carriage_return (universal_newlines s) = false
  /\ forall c, has_char carriage_return (universal_newlines (String c s)) = false.
Proof.
  induction s as [| b s [IH1 IH2]].
  - split; [reflexivity |]. intros c. rewrite universal_newlines_cons.
    destruct (Ascii.eqb c carriage_return) eqn:E; [reflexivity |].
    cbn [universal_newlines has_char]. rewrite Ascii.eqb_sym, E. reflexivity.
  - split; [apply IH2 |]. intros c. rewrite universal_newlines_cons.
    destruct (Ascii.eqb c carriage_return) eqn:E.
    + destruct (Ascii.eqb b newline).
      * cbn [has_char]. rewrite IH1. reflexivity.
      * change (has_char carriage_return
                  (String newline (universal_newlines (String b s))))
          with (Ascii.eqb carriage_return newline
                || has_char carriage_return (universal_newlines (String b s))).
        rewrite (IH2 b). reflexivity.
    + change (has_char carriage_return
                (String c (universal_newlines (String b s))))
        with (Ascii.eqb carriage_return c
              || has_char carriage_return (universal_newlines (String b s))).
      rewrite Ascii.eqb_sym, E, (IH2 b). reflexivity.
Qed.

Lemma universal_newlines_id (s : string) :
  has_char carriage_return s = false -> universal_newlines s = s.
Proof.
  induction s as [| c s IH]; [reflexivity |].
  cbn [has_char]. intros H. apply orb_false_iff in H as [Hc Hs].
  cbn [universal_newlines]. rewrite Ascii.eqb_sym, Hc, (IH Hs). reflexivity.
Qed.

Lemma newline_only_last_cons (c : ascii) (l : string) :
  Ascii.eqb c newline = false -> newline_only_last l = true ->
  newline_only_last (String c l) = true.
Proof.
  intros Hc Hl. destruct l; [reflexivity |].
  cbn [newline_only_last] in *. rewrite Hc, Hl. reflexivity.
Qed.

Lemma file_lines_proper (text : string) :
  forall line, In line (file_lines text) ->
    newline_only_last line = true
    /\ (has_char carriage_return text = false ->
        has_char carriage_return line = false).
Proof.
  induction text as [| c text IH]; intros line Hin; [destruct Hin |].
  cbn [file_lines] in Hin. cbn [has_char].
  destruct (Ascii.eqb c newline) eqn:Hc.
  - destruct Hin as [<- | Hin].
    + split; [reflexivity |]. intros H. apply orb_false_iff in H as [H _].
      cbn [has_char]. rewrite H. reflexivity.
    + destruct (IH _ Hin) as [H1 H2]. split; [exact H1 |].
      intros H. apply orb_false_iff in H as [_ H]. auto.
  - destruct (file_lines text) as [| l rest] eqn:Hl.
    + destruct Hin as [<- | []]. split; [reflexivity |].
      intros H. apply orb_false_iff in H as [H _]. cbn [has_char]. rewrite H. reflexivity.
    + destruct Hin as [<- | Hin].
      * destruct (IH l (or_introl eq_refl)) as [H1 H2].
        split; [apply newline_only_last_cons; assumption |].
        intros H. apply orb_false_iff in H as [Ha Hb].
        cbn [has_char]. rewrite Ha, (H2 Hb). reflexivity.
      * destruct (IH line (or_intror Hin)) as [H1 H2]. split; [exact H1 |].
        intros H. apply orb_false_iff in H as [_ H]. auto.
Qed.

Lemma load_lines_clean (lines : list string) :
  forall config,
    (forall line, In line lines ->
       newline_only_last line = true /\ has_char carriage_return line = false) ->
    clean_config config ->
    exists config', ConfigManager.load_lines lines config = Returned config'
                    /\ clean_config config'.
Proof.
  induction lines as [| line lines IH]; intros config Hlines Hc.
  - exists config. split; [reflexivity | exact Hc].
  - cbn [ConfigManager.load_lines].
    destruct (Hlines line (or_introl eq_refl)) as [H1 H2].
    destruct (load_line_clean config line H1 H2 Hc) as (c' & -> & Hc').
    cbn [bind]. apply IH; [| exact Hc'].
    intros l Hl. apply Hlines. right. exact Hl.
Qed.

Lemma load_config_is_clean (file : option string) :
  exists config, ConfigManager.load_config file = Returned config
                 /\ clean_config config.
Proof.
  destruct file as [raw |]; cbn [ConfigManager.load_config].
  - apply load_lines_clean.
    + intros line Hin.
      destruct (file_lines_proper _ _ Hin) as [H1 H2]. split; [exact H1 |].
      apply H2, universal_newlines_no_cr_aux.
    + split; constructor.
  - exists []. split; [reflexivity | split; constructor].
Qed.

(** save, then load *)
Section RoundTrip.

Variable str_of : json -> string.

Local Abbreviation saved_value := (saved_value str_of).

Lemma save_line_eq (k : string) (v : json) :
  ConfigManager.save_line str_of (k, v)
  = (k ++ String "=" (saved_value v)) ++ String newline EmptyString.
Proof.
  unfold ConfigManager.save_line, saved_value. cbn [fst snd].
  rewrite string_app_assoc. reflexivity.
Qed.

Lemma clean_value_saved (v : json) :
  clean_value v = true ->
  has_char newline (saved_value v) = false
  /\ has_char carriage_return (saved_value v) = false
  /\ ends_with_space (saved_value v) = false
  /\ (if String.eqb (saved_value v) "" then JNull else JStr (saved_value v)) = v.
Proof.
  unfold saved_value. destruct v as [| b | q | s | l | d]; try discriminate.
  - intros _. repeat split.
  - cbn [clean_value truthy ConfigManager.format_value]. intros H.
    apply andb_true_iff in H as [H He]. apply andb_true_iff in H as [H Hc].
    apply andb_true_iff in H as [Hs Hn].
    rewrite Hs. apply negb_true_iff in Hs, Hn, Hc, He. rewrite Hs. auto.
Qed.

Lemma load_line_saved (acc : list (string * json)) (k : string) (v : json) :
  clean_key k = true -> clean_value v = true ->
  ConfigManager.load_line acc (ConfigManager.save_line str_of (k, v))
  = Returned (dict_set k v acc).
Proof.
  intros Hk Hv. unfold clean_key in Hk.
  apply andb_true_iff in Hk as [Hk Hsp]. apply andb_true_iff in Hk as [Hk Hcr].
  apply andb_true_iff in Hk as [Heq Hnl].
  apply negb_true_iff in Heq, Hnl, Hcr, Hsp.
  destruct (clean_value_saved v Hv) as (Vnl & Vcr & Vend & Vback).
  rewrite save_line_eq. unfold ConfigManager.load_line.
  rewrite is_substring_char, !has_char_app. cbn [has_char].
  rewrite Ascii.eqb_refl, orb_true_r. cbn [orb].
  assert (Hstrip : strip ((k ++ String "=" (saved_value v)) ++ String newline EmptyString)
                   = k ++ String "=" (saved_value v)).
  { unfold strip. rewrite lstrip_no_space.
    - rewrite rstrip_app_space by reflexivity. apply rstrip_no_space.
      destruct (saved_value v) as [| c r] eqn:E.
      + apply (ends_with_space_app k (String "=" EmptyString)). discriminate.
      + replace (k ++ String "=" (String c r))
          with ((k ++ String "=" EmptyString) ++ String c r)
          by (rewrite string_app_assoc; reflexivity).
        rewrite ends_with_space_app by discriminate. exact Vend.
    - rewrite string_app_assoc. cbn [append].
      rewrite starts_with_space_app. exact Hsp. }
  rewrite Hstrip, (split_once_found _ _ _ Heq).
  cbn [ConfigManager.unpack_pair bind fst snd]. rewrite Vback. reflexivity.
Qed.

Lemma load_lines_saved (config : list (string * json)) :
  forall acc,
    NoDup (map fst (acc ++ config)) ->
    Forall (fun kv => clean_key (fst kv) = true /\ clean_value (snd kv) = true)
           config ->
    ConfigManager.load_lines (map (ConfigManager.save_line str_of) config) acc
    = Returned (acc ++ config)%list.
Proof.
  induction config as [| [k v] config IH]; intros acc Hnd Hall.
  - cbn. rewrite app_nil_r. reflexivity.
  - inversion Hall as [| x l [Hk Hv] Hrest]; subst. cbn [fst snd] in Hk, Hv.
    cbn [map ConfigManager.load_lines].
    rewrite (load_line_saved acc k v Hk Hv). cbn [bind].
    rewrite dict_set_fresh.
    + rewrite IH; [| | exact Hrest].
      * rewrite <- app_assoc. reflexivity.
      * rewrite <- app_assoc. exact Hnd.
    + rewrite map_app in Hnd. cbn [map fst] in Hnd.
      apply NoDup_remove_2 in Hnd. intros Hin. apply Hnd.
      apply in_or_app. left. exact Hin.
Qed.

Lemma concat_cons (x : string) (xs : list string) :
  String.concat "" (x :: xs) = x ++ String.concat "" xs.
Proof.
  destruct xs as [| y ys]; cbn [String.concat].
  - induction x as [| c x IH]; [reflexivity |]. cbn. rewrite <- IH. reflexivity.
  - reflexivity.
Qed.

Lemma file_lines_app (content rest : string) :
  has_char newline content = false ->
  file_lines ((content ++ String newline EmptyString) ++ rest)
  = (content ++ String newline EmptyString) :: file_lines rest.
Proof.
  induction content as [| c content IH]; intros H.
  - cbn. reflexivity.
  - cbn [has_char] in H. apply orb_false_iff in H as [Hc H].
    cbn [append file_lines]. rewrite Ascii.eqb_sym, Hc.
    cbn [append] in IH. rewrite (IH H). reflexivity.
Qed.

Lemma saved_line_chars (k : string) (v : json) :
  clean_key k = true -> clean_value v = true ->
  has_char newline (k ++ String "=" (saved_value v)) = false
  /\ has_char carriage_return (ConfigManager.save_line str_of (k, v)) = false.
Proof.
  intros Hk Hv. unfold clean_key in Hk.
  apply andb_true_iff in Hk as [Hk Hsp]. apply andb_true_iff in Hk as [Hk Hcr].
  apply andb_true_iff in Hk as [Heq Hnl].
  apply negb_true_iff in Heq, Hnl, Hcr, Hsp.
  destruct (clean_value_saved v Hv) as (Vnl & Vcr & Vend & Vback).
  rewrite save_line_eq, !has_char_app. cbn [has_char].
  rewrite Hnl, Hcr, Vnl, Vcr. split; reflexivity.
Qed.

Lemma saved_text (config : list (string * json)) :
  Forall (fun kv => clean_key (fst kv) = true /\ clean_value (snd kv) = true)
         config ->
  has_char carriage_return (ConfigManager.save_config str_of config) = false
  /\ file_lines (ConfigManager.save_config str_of config)
     = map (ConfigManager.save_line str_of) config.
Proof.
  unfold ConfigManager.save_config.
  induction 1 as [| [k v] config [Hk Hv] Hrest [IH1 IH2]]; [split; reflexivity |].
  cbn [map fst snd] in *. rewrite concat_cons.
  destruct (saved_line_chars k v Hk Hv) as [Hnl Hcr].
  split.
  - rewrite has_char_app, Hcr, IH1. reflexivity.
  - rewrite save_line_eq, (file_lines_app _ _ Hnl), IH2. reflexivity.
Qed.

Lemma load_config_saved (config : list (string * json)) :
  clean_config config ->
  ConfigManager.load_config (Some (ConfigManager.save_config str_of config))
  = Returned config.
Proof.
  intros [Hnd Hall]. cbn [ConfigManager.load_config].
  destruct (saved_text config Hall) as [Hcr Hlines].
  rewrite (universal_newlines_id _ Hcr), Hlines.
  apply (load_lines_saved config [] Hnd Hall).
Qed.

(** X14. A configuration whose keys and values are clean, no key twice,
    is read back by [load_config] from what [save_config] wrote exactly
    as it was: the same keys in the same order with the same values,
    [None] coming back as [None]. *)
Theorem save_load_round_trip (config : list (string * json)) :
  clean_config config ->
  ConfigManager.load_config (Some (ConfigManager.save_config str_of config))
  = Returned config.
Proof. exact (load_config_saved config). Qed.

(** X15. Whatever the file holds, saving what [load_config] read from it
    and loading again gives the same configuration: one pass through
    [load_config] brings every file to a form that [save_config] and
    [load_config] keep. *)
Theorem load_save_load (file : option string) :
  exists loaded,
    ConfigManager.load_config file = Returned loaded
    /\ ConfigManager.load_config
         (Some (ConfigManager.save_config str_of loaded))
       = Returned loaded.
Proof.
  destruct (load_config_is_clean file) as (loaded & Hload & Hclean).
  exists loaded. split; [exact Hload | exact (load_config_saved loaded Hclean)].
Qed.

End RoundTrip.

(** X13. [load_config] never raises, whatever the file holds or when
    there is none: a line with an [=] always splits in two.  No key of
    the result occurs twice, holds an [=] or a line break or starts with
    white space; every value is [None] or a string that is not empty,
    holds no line break and ends in no white space. *)
Theorem load_config_clean (file : option string) :
  exists config, ConfigManager.load_config file = Returned config
                 /\ clean_config config.
Proof. exact (load_config_is_clean file). Qed.

End Text.

Lemma save_load_round_trip_witness :
  clean_config Setup.configured
  /\ ConfigManager.load_config
       (Some (ConfigManager.save_config str_of_unused Setup.configured))
     = Returned Setup.configured.
Proof.
  assert (H : clean_config Setup.configured).
  { split.
    - repeat constructor; cbn; intuition discriminate.
    - repeat constructor. }
  split; [exact H |].
  apply (save_load_round_trip str_of_unused Setup.configured H).
Defined.

(** ** Asking for the credentials *)

Lemma dict_lookup_set_same (k : string) (v : json) (d : list (string * json)) :
  dict_lookup k (dict_set k v d) = Some v.
Proof.
  induction d as [| [k0 v0] d IH]; cbn [dict_set dict_lookup].
  - rewrite String.eqb_refl. reflexivity.
  - destruct (String.eqb k k0) eqn:E; cbn [dict_lookup].
    + rewrite String.eqb_refl. reflexivity.
    + rewrite E. exact IH.
Qed.

Lemma dict_lookup_set_other (k k' : string) (v : json) (d : list (string * json)) :
  k' <> k -> dict_lookup k' (dict_set k v d) = dict_lookup k' d.
Proof.
  intros Hk. apply String.eqb_neq in Hk.
  induction d as [| [k0 v0] d IH]; cbn [dict_set dict_lookup].
  - rewrite Hk. reflexivity.
  - destruct (String.eqb k k0) eqn:E; cbn [dict_lookup].
    + apply String.eqb_eq in E. subst k0. rewrite Hk. reflexivity.
    + rewrite IH. reflexivity.
Qed.

Lemma dict_has_set_same (k : string) (v : json) (d : list (string * json)) :
  dict_has k (dict_set k v d) = true.
Proof. unfold dict_has. rewrite dict_lookup_set_same. reflexivity. Qed.

Lemma dict_has_set_mono (k k' : string) (v : json) (d : list (string * json)) :
  dict_has k' d = true -> dict_has k' (dict_set k v d) = true.
Proof.
  intros H. destruct (String.eqb k' k) eqn:E.
  - apply String.eqb_eq in E. subst. apply dict_has_set_same.
  - apply String.eqb_neq in E. unfold dict_has in *.
    rewrite dict_lookup_set_other by exact E. exact H.
Qed.

Lemma truthy_get_has (d : list (string * json)) (k : string) :
  truthy (dict_get d k) = true -> dict_has k d = true.
Proof.
  unfold dict_get, dict_has. destruct (dict_lookup k d); [reflexivity | discriminate].
Qed.

Lemma ask_spec (key : string) (config : list (string * json)) (inputs : list string) :
  (truthy (dict_get config key) = true ->
   ConfigManager.ask key config inputs = Answered config inputs)
  /\ (forall e rest, ConfigManager.ask key config inputs <> Threw e rest)
  /\ (forall c' rest, ConfigManager.ask key config inputs = Answered c' rest ->
        dict_has key c' = true
        /\ (forall k, k <> key -> dict_lookup k c' = dict_lookup k config)
        /\ exists read, inputs = (read ++ rest)%list /\ (List.length read <= 1)%nat).
Proof.
  unfold ConfigManager.ask.
  destruct (truthy (dict_get config key)) eqn:Ht; cbn [negb].
  - split; [reflexivity |]. split; [discriminate |].
    intros c' rest H. inversion H; subst.
    split; [apply truthy_get_has, Ht |]. split; [reflexivity |].
    exists []. split; [reflexivity | cbn; lia].
  - split; [discriminate |]. destruct inputs as [| line rest0].
    + split; discriminate.
    + split; [discriminate |]. intros c' rest H. inversion H; subst.
      split; [apply dict_has_set_same |].
      split; [intros k Hk; apply dict_lookup_set_other, Hk |].
      exists [line]. split; [reflexivity | cbn; lia].
Qed.

Lemma prompt_for_credentials_spec (config : list (string * json))
    (inputs : list string) :
  (truthy (dict_get config "Username") = true ->
   truthy (dict_get config "Password") = true ->
   ConfigManager.prompt_for_credentials config inputs = Answered config inputs)
  /\ (forall e rest,
        ConfigManager.prompt_for_credentials config inputs <> Threw e rest)
  /\ (forall c' rest,
        ConfigManager.prompt_for_credentials config inputs = Answered c' rest ->
        dict_has "Username" c' = true /\ dict_has "Password" c' = true
        /\ (forall k, k <> "Username" -> k <> "Password" ->
                      dict_lookup k c' = dict_lookup k config)
        /\ exists read, inputs = (read ++ rest)%list /\ (List.length read <= 2)%nat).
Proof.
  unfold ConfigManager.prompt_for_credentials.
  destruct (ask_spec "Username" config inputs) as (Hu1 & Hu2 & Hu3).
  split; [| split].
  - intros HU HP. rewrite (Hu1 HU).
    apply (proj1 (ask_spec "Password" config inputs) HP).
  - intros e rest.
    destruct (ConfigManager.ask "Username" config inputs) as [c1 r1 | e1 r1 |] eqn:Ha.
    + apply (proj1 (proj2 (ask_spec "Password" c1 r1))).
    + exfalso. apply (Hu2 e1 r1). reflexivity.
    + discriminate.
  - intros c' rest.
    destruct (ConfigManager.ask "Username" config inputs) as [c1 r1 | e1 r1 |] eqn:Ha;
      try discriminate.
    intros Hp.
    destruct (Hu3 c1 r1 eq_refl) as (Hhas & Hother & read1 & Hin1 & Hlen1).
    destruct (proj2 (proj2 (ask_spec "Password" c1 r1)) c' rest Hp)
      as (Hhas2 & Hother2 & read2 & Hin2 & Hlen2).
    split; [| split; [exact Hhas2 | split]].
    + unfold dict_has in *. rewrite Hother2 by discriminate. exact Hhas.
    + intros k Hk1 Hk2. rewrite Hother2 by exact Hk2. apply Hother, Hk1.
    + exists (read1 ++ read2)%list. split.
      * rewrite <- app_assoc, <- Hin2. exact Hin1.
      * rewrite length_app. lia.
Qed.


(** ** [main] *)

Section Main.

Variable int_of_str : string -> option Z.
Variable str_of : json -> string.

Lemma school_missing_set_device (v : json) (c : list (string * json)) :
  school_missing (dict_set "DeviceID" v c) = school_missing c.
Proof.
  unfold school_missing, dict_has.
  rewrite !dict_lookup_set_other by discriminate. reflexivity.
Qed.

Lemma main_of_try (w : world) (r : main_run) :
  main_try int_of_str str_of w = r ->
  (forall e, main_outcome r <> Failed e) ->
  main int_of_str str_of w = r.
Proof.
  intros <- H. unfold main.
  destruct (main_outcome (main_try int_of_str str_of w)) as [[] | e |] eqn:E;
    try reflexivity.
  exfalso. apply (H e). reflexivity.
Qed.

(** X17. When the configuration names no school and the directory gives
    nothing that counts as true (an empty list, also the one
    [get_all_school_list] returns for a failure), [main] returns after
    that one request: nothing is saved, so the credentials typed and the
    device identifier drawn are lost, and the tracker is never started. *)
Theorem main_exits_without_schools (w : world)
    (loaded with_credentials : list (string * json)) (rest : list string)
    (o : http_outcome) (answers : list http_outcome) (school_list : json) :
  ConfigManager.load_config (config_file w) = Returned loaded ->
  ConfigManager.prompt_for_credentials loaded (stdin w)
  = Answered with_credentials rest ->
  school_missing with_credentials = true ->
  network w = o :: answers ->
  SchoolService.get_all_school_list o = Returned school_list ->
  truthy school_list = false ->
  main int_of_str str_of w
  = mkMainRun (Finished tt) (config_file w) [MvGetAll] rest answers.
Proof.
  intros Hload Hprompt Hmiss Hnet Hget Hfalsy.
  apply main_of_try; [| discriminate].
  unfold main_try. rewrite Hload, Hprompt.
  destruct (negb (truthy (dict_get with_credentials "DeviceID")));
    rewrite ?school_missing_set_device, Hmiss, Hnet, Hget, Hfalsy; reflexivity.
Qed.

Lemma main_try_complete (w : world) (loaded : list (string * json)) :
  ConfigManager.load_config (config_file w) = Returned loaded ->
  truthy (dict_get loaded "Username") = true ->
  truthy (dict_get loaded "Password") = true ->
  truthy (dict_get loaded "DeviceID") = true ->
  school_missing loaded = false ->
  main_try int_of_str str_of w
  = save_and_track str_of loaded [] (stdin w) (network w).
Proof.
  intros Hload HU HP HD Hs. unfold main_try.
  rewrite Hload, (proj1 (prompt_for_credentials_spec loaded (stdin w)) HU HP).
  rewrite HD. cbn [negb]. rewrite Hs. reflexivity.
Qed.

Lemma main_keeps (w : world) :
  main_file (main int_of_str str_of w) = main_file (main_try int_of_str str_of w)
  /\ main_stdin (main int_of_str str_of w) = main_stdin (main_try int_of_str str_of w)
  /\ main_network (main int_of_str str_of w)
     = main_network (main_try int_of_str str_of w)
  /\ (main_trace (main int_of_str str_of w) = main_trace (main_try int_of_str str_of w)
      \/ exists e, main_trace (main int_of_str str_of w)
                   = (main_trace (main_try int_of_str str_of w) ++ [MvFatal e])%list).
Proof.
  unfold main.
  destruct (main_outcome (main_try int_of_str str_of w)) as [[] | e |];
    try (repeat split; auto; fail).
  destruct (is_caught_by_main e); cbn; repeat split; eauto.
Qed.

Lemma load_config_deterministic_clean (file : option string)
    (loaded : list (string * json)) :
  ConfigManager.load_config file = Returned loaded -> clean_config loaded.
Proof.
  intros H. destruct (load_config_is_clean file) as (c & Hc & Hclean).
  rewrite H in Hc. inversion Hc. subst. exact Hclean.
Qed.

Lemma school_present (c : list (string * json)) :
  school_missing c = false ->
  dict_has "SchoolGUID" c = true /\ dict_has "ServiceUrl" c = true
  /\ dict_has "SchoolLatitude" c = true /\ dict_has "SchoolLongitude" c = true.
Proof.
  unfold school_missing. intros H.
  apply orb_false_iff in H as [H H4]. apply orb_false_iff in H as [H H3].
  apply orb_false_iff in H as [H1 H2].
  apply negb_false_iff in H1, H2, H3, H4. auto.
Qed.

Lemma complete_after_update (c info : list (string * json)) (school : json) :
  dict_has "Username" c = true -> dict_has "Password" c = true ->
  dict_has "DeviceID" c = true ->
  SchoolService.school_info school = Returned info ->
  complete_config (dict_update c info).
Proof.
  intros HU HP HD Hinfo.
  destruct (school_info_fields school info Hinfo)
    as (d & serial & url & lat & lon & _ & _ & _ & _ & _ & ->).
  unfold dict_update. cbn [fold_left fst snd].
  repeat constructor;
    repeat (first [apply dict_has_set_same | apply dict_has_set_mono]);
    assumption.
Qed.

Lemma main_try_shape (w : world) :
  (main_file (main_try int_of_str str_of w) = config_file w
   /\ (main_trace (main_try int_of_str str_of w) = []
       \/ main_trace (main_try int_of_str str_of w) = [MvGetAll]))
  \/ exists (config : list (string * json)) (before : list main_event)
            (tracked : list event),
       complete_config config
       /\ main_file (main_try int_of_str str_of w)
          = Some (ConfigManager.save_config str_of config)
       /\ main_trace (main_try int_of_str str_of w)
          = (before ++ MvSave :: map MvTracker tracked)%list
       /\ (before = [] \/ before = [MvGetAll]).
Proof.
  unfold main_try.
  destruct (ConfigManager.load_config (config_file w)) as [loaded | e];
    [| left; cbn; auto].
  destruct (ConfigManager.prompt_for_credentials loaded (stdin w))
    as [creds rest | e rest |] eqn:Hp; [| left; cbn; auto | left; cbn; auto].
  destruct (proj2 (proj2 (prompt_for_credentials_spec loaded (stdin w)))
              creds rest Hp) as (HU & HP & _).
  set (config := if negb (truthy (dict_get creds "DeviceID"))
                 then dict_set "DeviceID" (JStr (fresh_uuid w)) creds else creds).
  assert (Hc : dict_has "Username" config = true /\ dict_has "Password" config = true
               /\ dict_has "DeviceID" config = true).
  { unfold config. destruct (truthy (dict_get creds "DeviceID")) eqn:HD; cbn [negb].
    - repeat split; auto. apply truthy_get_has, HD.
    - repeat split; [apply dict_has_set_mono, HU | apply dict_has_set_mono, HP
                     | apply dict_has_set_same]. }
  destruct Hc as (HU' & HP' & HD').
  destruct (school_missing config) eqn:Hs.
  - destruct (network w) as [| o answers]; [left; cbn; auto |].
    destruct (SchoolService.get_all_school_list o) as [school_list | e];
      [| left; cbn; auto].
    destruct (truthy school_list); cbn [negb]; [| left; cbn; auto].
    destruct (select_school int_of_str school_list rest)
      as [[info |] rest' | e rest' |] eqn:Hsel; try (left; cbn; auto; fail).
    destruct (select_school_answer int_of_str _ _ _ _ Hsel)
      as (l & sk & ln & n & school & _ & _ & _ & _ & _ & Hinfo).
    destruct info as [| kv info']; [left; cbn; auto |].
    right. exists (dict_update config (kv :: info')), [MvGetAll].
    eexists. split; [| split; [reflexivity | split; [reflexivity | auto]]].
    apply (complete_after_update _ _ school); assumption.
  - right. exists config, []. eexists.
    split; [| split; [reflexivity | split; [reflexivity | auto]]].
    destruct (school_present _ Hs) as (H1 & H2 & H3 & H4).
    repeat constructor; assumption.
Qed.

(** X19. Every run of [main] has one of two shapes.  Either the
    configuration file is left as it was and nothing but the request for
    the directory, and the fatal error if one is logged, has happened;
    or the file was written once, with a configuration that holds all
    seven keys, after the request for the directory if there was one and
    before everything the tracker did. *)
Theorem main_saves_before_tracking (w : world) :
  exists (before : list main_event) (fatal : list main_event),
    (before = [] \/ before = [MvGetAll])
    /\ (fatal = [] \/ exists e, fatal = [MvFatal e])
    /\ ((main_file (main int_of_str str_of w) = config_file w
         /\ main_trace (main int_of_str str_of w) = (before ++ fatal)%list)
        \/ exists (config : list (string * json)) (tracked : list event),
             complete_config config
             /\ main_file (main int_of_str str_of w)
                = Some (ConfigManager.save_config str_of config)
             /\ main_trace (main int_of_str str_of w)
                = (before ++ MvSave :: map MvTracker tracked ++ fatal)%list).
Proof.
  destruct (main_keeps w) as (Hf & _ & _ & Ht).
  rewrite Hf.
  assert (Hfatal : exists fatal,
             (fatal = [] \/ exists e, fatal = [MvFatal e])
             /\ main_trace (main int_of_str str_of w)
                = (main_trace (main_try int_of_str str_of w) ++ fatal)%list).
  { destruct Ht as [Ht | [e Ht]].
    - exists []. rewrite app_nil_r. auto.
    - exists [MvFatal e]. eauto. }
  destruct Hfatal as (fatal & Hfatal & ->).
  destruct (main_try_shape w) as [[Hfile [Htr | Htr]] | Hsaved].
  - exists [], fatal. rewrite Htr. auto.
  - exists [MvGetAll], fatal. rewrite Htr. auto.
  - destruct Hsaved as (config & before & tracked & Hc & Hfile & Htr & Hb).
    exists before, fatal. split; [exact Hb |]. split; [exact Hfatal |].
    right. exists config, tracked. split; [exact Hc |]. split; [exact Hfile |].
    rewrite Htr, <- app_assoc. reflexivity.
Qed.

(** X18. With a file that gives non-empty credentials and device
    identifier and names a school, [main] reads no line and never asks
    for the directory; the first thing it does is to write the file, from
    which [load_config] reads the same configuration again. *)
Theorem main_with_complete_config (w : world) (loaded : list (string * json)) :
  ConfigManager.load_config (config_file w) = Returned loaded ->
  truthy (dict_get loaded "Username") = true ->
  truthy (dict_get loaded "Password") = true ->
  truthy (dict_get loaded "DeviceID") = true ->
  school_missing loaded = false ->
  main_stdin (main int_of_str str_of w) = stdin w
  /\ main_file (main int_of_str str_of w)
     = Some (ConfigManager.save_config str_of loaded)
  /\ ConfigManager.load_config (main_file (main int_of_str str_of w))
     = Returned loaded
  /\ ~ In MvGetAll (main_trace (main int_of_str str_of w))
  /\ hd_error (main_trace (main int_of_str str_of w)) = Some MvSave.
Proof.
  intros Hload HU HP HD Hs.
  pose proof (main_try_complete w loaded Hload HU HP HD Hs) as Htry.
  destruct (main_keeps w) as (Hf & Hi & _ & Ht).
  rewrite Hf, Hi, Htry. cbn [save_and_track main_file main_stdin].
  split; [reflexivity |]. split; [reflexivity |]. split.
  - apply load_config_saved, (load_config_deterministic_clean _ _ Hload).
  - rewrite Htry in Ht. cbn [save_and_track main_trace app] in Ht.
    assert (Hno : forall evs, ~ In MvGetAll (map MvTracker evs)).
    { intros evs Hin. apply in_map_iff in Hin as (x & Hx & _). discriminate. }
    destruct Ht as [-> | [e ->]]; cbn [hd_error app]; (split; [| reflexivity]).
    + intros [H | H]; [discriminate | exact (Hno _ H)].
    + intros [H | H]; [discriminate |]. apply in_app_or in H as [H | [H | []]];
        [exact (Hno _ H) | discriminate].
Qed.

(** X20. A school of the directory that has no ["Account"] ends [main]
    with a [KeyError], which it does not catch: the listing of
    [select_school] raises it before any line is read, and nothing is
    saved. *)
Theorem main_school_without_account (w : world)
    (loaded with_credentials : list (string * json)) (rest : list string)
    (o : http_outcome) (answers : list http_outcome) (school : json)
    (schools : list json) :
  ConfigManager.load_config (config_file w) = Returned loaded ->
  ConfigManager.prompt_for_credentials loaded (stdin w)
  = Answered with_credentials rest ->
  school_missing with_credentials = true ->
  network w = o :: answers ->
  SchoolService.get_all_school_list o = Returned (JArr (school :: schools)) ->
  SchoolService.list_accounts (school :: schools) = Raised KeyError ->
  main int_of_str str_of w
  = mkMainRun (Failed KeyError) (config_file w) [MvGetAll] rest answers.
Proof.
  intros Hload Hprompt Hmiss Hnet Hget Hacc.
  assert (Htry : main_try int_of_str str_of w
                 = mkMainRun (Failed KeyError) (config_file w) [MvGetAll] rest
                     answers).
  { unfold main_try. rewrite Hload, Hprompt.
    destruct (negb (truthy (dict_get with_credentials "DeviceID")));
      rewrite ?school_missing_set_device, Hmiss, Hnet, Hget;
      unfold select_school; cbn [truthy negb SchoolService.py_iter bind];
      rewrite Hacc; reflexivity. }
  unfold main. rewrite Htry. reflexivity.
Qed.

End Main.

Lemma main_exits_without_schools_witness :
  main decimal_int str_of_unused Setup.first_start
  = mkMainRun (Finished tt) None [MvGetAll] [] [ Samples.login_far ].
Proof.
  apply (main_exits_without_schools decimal_int str_of_unused Setup.first_start
           [] [ ("Username", JStr "pat"); ("Password", JStr "s3cret") ] []
           TransportFailure [ Samples.login_far ] (JArr []));
    reflexivity.
Defined.

Lemma main_with_complete_config_witness :
  main_stdin (main decimal_int str_of_unused Setup.later_start)
  = [ "not asked for" ]
  /\ main_file (main decimal_int str_of_unused Setup.later_start)
     = Some (ConfigManager.save_config str_of_unused Setup.configured)
  /\ ConfigManager.load_config
       (main_file (main decimal_int str_of_unused Setup.later_start))
     = Returned Setup.configured
  /\ ~ In MvGetAll (main_trace (main decimal_int str_of_unused Setup.later_start))
  /\ hd_error (main_trace (main decimal_int str_of_unused Setup.later_start))
     = Some MvSave.
Proof.
  apply (main_with_complete_config decimal_int str_of_unused Setup.later_start
           Setup.configured);
    reflexivity.
Defined.

Lemma main_school_without_account_witness :
  main decimal_int str_of_unused Setup.nameless_directory
  = mkMainRun (Failed KeyError) None [MvGetAll] [ "1" ] [].
Proof.
  apply (main_school_without_account decimal_int str_of_unused
           Setup.nameless_directory [] 
           [ ("Username", JStr "pat"); ("Password", JStr "s3cret") ] [ "1" ]
           (Response 200
              (Some (JObj [ ("Clients",
                             JArr [ JObj [ ("Serial", JStr "guid-x") ] ]) ])))
           [] (JObj [ ("Serial", JStr "guid-x") ]) []);
    reflexivity.
Defined.

(** ** The tracker, once more *)

Lemma split_all_app (sep : ascii) (a b : string) :
  has_char sep a = false ->
  split_all sep (a ++ String sep b) = a :: split_all sep b.
Proof.
  induction a as [| c a IH]; intros H; cbn [append split_all].
  - rewrite Ascii.eqb_refl. reflexivity.
  - cbn [has_char] in H. apply orb_false_iff in H as [Hc Ha].
    rewrite Ascii.eqb_sym, Hc, (IH Ha). reflexivity.
Qed.

Lemma split_all_nonempty (sep : ascii) (s : string) : split_all sep s <> [].
Proof.
  induction s as [| c s IH]; cbn [split_all]; [discriminate |].
  destruct (Ascii.eqb c sep); [discriminate |].
  destruct (split_all sep s); [contradiction | discriminate].
Qed.

Lemma split_all_none (sep : ascii) (s : string) :
  has_char sep s = false -> split_all sep s = [s].
Proof.
  induction s as [| c s IH]; intros H; cbn [split_all]; [reflexivity |].
  cbn [has_char] in H. apply orb_false_iff in H as [Hc Hs].
  rewrite Ascii.eqb_sym, Hc, (IH Hs). reflexivity.
Qed.

Lemma py_list_index_third {A : Type} (x y z : A) (l : list A) :
  py_list_index (x :: y :: z :: l) 2 = Returned z.
Proof.
  unfold py_list_index. cbn [List.length].
  replace (2 <? 0) with false by reflexivity.
  replace (Z.of_nat (S (S (S (List.length l)))) <=? 2) with false
    by (symmetry; apply Z.leb_gt; lia).
  reflexivity.
Qed.

(** X21. The [Host] header every request of the tracker carries is the
    third piece of [config["ServiceUrl"]] split at the slashes: the host
    of [scheme//host/path] and of [scheme//host]; a URL with one slash
    only ends the call with an [IndexError], and a [ServiceUrl] that is
    [None], as [load_config] leaves it for an empty value, with an
    [AttributeError]. *)
Theorem service_host_of_url (config : list (string * json))
    (scheme host path : string) :
  has_char "/" scheme = false -> has_char "/" host = false ->
  (dict_lookup "ServiceUrl" config
   = Some (JStr (scheme ++ "//" ++ host ++ "/" ++ path)) ->
   service_host config = Returned host)
  /\ (dict_lookup "ServiceUrl" config = Some (JStr (scheme ++ "//" ++ host)) ->
      service_host config = Returned host)
  /\ (dict_lookup "ServiceUrl" config = Some (JStr (scheme ++ "/" ++ host)) ->
      service_host config = Raised IndexError)
  /\ (dict_lookup "ServiceUrl" config = Some JNull ->
      service_host config = Raised AttributeError).
Proof.
  intros Hs Hh. unfold service_host. repeat split; intros ->.
  - change (scheme ++ "//" ++ host ++ "/" ++ path)
      with (scheme ++ String "/" (EmptyString ++ String "/" (host ++ String "/" path))).
    rewrite (split_all_app _ _ _ Hs), (split_all_app _ EmptyString _ eq_refl),
      (split_all_app _ _ _ Hh).
    apply py_list_index_third.
  - change (scheme ++ "//" ++ host)
      with (scheme ++ String "/" (EmptyString ++ String "/" host)).
    rewrite (split_all_app _ _ _ Hs), (split_all_app _ EmptyString _ eq_refl),
      (split_all_none _ _ Hh).
    reflexivity.
  - change (scheme ++ "/" ++ host) with (scheme ++ String "/" host).
    rewrite (split_all_app _ _ _ Hs), (split_all_none _ _ Hh). reflexivity.
  - reflexivity.
Qed.

Lemma service_host_of_url_witness :
  service_host Setup.configured = Returned "south.example".
Proof.
  apply (proj1 (service_host_of_url Setup.configured "https:" "south.example"
                  "svc/" eq_refl eq_refl)).
  reflexivity.
Defined.

(** X22. When [check_bus_status] returns, the tracker holds a vehicle
    id, the latitude and the longitude returned are not [None], and what
    happened is a number of logins each followed by a sleep of 300
    seconds, and then one more login. *)
Theorem check_bus_status_returns_running (answers : list http_outcome) :
  forall (t : BusTracker) (s : sample),
    outcome (check_bus_status answers t) = Finished s ->
    truthy (bus_id (bus_info (tracker (check_bus_status answers t)))) = true
    /\ is_not_None (fst (fst (fst s))) = true
    /\ is_not_None (snd (fst (fst s))) = true
    /\ exists n : nat,
         trace (check_bus_status answers t)
         = (List.concat (repeat [EvLogin; EvSleep 300] n) ++ [EvLogin])%list.
Proof.
  induction answers as [| o rest IH]; intros t s; cbn [check_bus_status];
    [discriminate |].
  destruct (login_user o t) as [[s' | e] t'] eqn:Hl; [| discriminate].
  destruct (not_running t' s') eqn:Hn.
  - unfold after. cbn [outcome tracker trace]. intros H.
    destruct (IH t' s H) as (Hb & Hla & Hlo & n & Htr).
    repeat split; auto. exists (S n). rewrite Htr. reflexivity.
  - cbn [outcome tracker trace]. intros H. inversion H; subst.
    destruct s as [[[lat lon] h] lt]. cbn [not_running fst snd] in *.
    apply orb_false_iff in Hn as [Hn Hlo]. apply orb_false_iff in Hn as [Hb Hla].
    apply negb_false_iff in Hb, Hla, Hlo.
    repeat split; auto. exists 0%nat. reflexivity.
Qed.

Lemma check_bus_status_returns_running_witness :
  truthy (bus_id (bus_info (tracker
            (check_bus_status [ Setup.login_idle; Samples.login_far ]
               BusTracker_init)))) = true
  /\ is_not_None (fst (fst (fst Samples.sample_origin))) = true
  /\ is_not_None (snd (fst (fst Samples.sample_origin))) = true
  /\ exists n : nat,
       trace (check_bus_status [ Setup.login_idle; Samples.login_far ]
                BusTracker_init)
       = (List.concat (repeat [EvLogin; EvSleep 300] n) ++ [EvLogin])%list.
Proof.
  apply (check_bus_status_returns_running
           [ Setup.login_idle; Samples.login_far ] BusTracker_init
           Samples.sample_origin).
  reflexivity.
Defined.

Lemma not_http_error (st : Z) :
  ~ 400 <= st < 600 -> (400 <=? st) && (st <? 600) = false.
Proof.
  intros H. apply andb_false_iff.
  destruct (Z.leb_spec 400 st); [right | left; reflexivity].
  apply Z.ltb_ge. lia.
Qed.

(** X23. A login answered with a status outside 400..599 and a first
    student whose matched bus is active returns the position, heading
    and log time of that bus and fills the tracker: session id, login
    GUID and record id from the answer, vehicle id from the bus, route
    and stop from the matched route, each [None] where the answer has no
    such key; a student without matched route leaves the route and the
    stop [None]. *)
Theorem login_user_populates (st : Z) (d stu bus route : list (string * json))
    (rest : list json) (flag : json) (t : BusTracker) :
  ~ 400 <= st < 600 ->
  dict_lookup "Students" d = Some (JArr (JObj stu :: rest)) ->
  dict_lookup "MatchedBusData" stu = Some (JObj bus) ->
  dict_lookup "IsActive" bus = Some flag -> truthy flag = true ->
  dict_lookup "MatchedRoute" stu = Some (JObj route)
  \/ (dict_lookup "MatchedRoute" stu = None /\ route = []) ->
  login_user (Response st (Some (JObj d))) t
  = (Returned (dict_get bus "Latitude", dict_get bus "Longitude",
               dict_get bus "Heading", dict_get bus "LogTime"),
     mkBusTracker
       (mkSessionInfo (dict_get d "SessionID") (dict_get d "LoginGUID")
                      (dict_get stu "RecordID"))
       (mkBusInfo (dict_get bus "RPVehicleId") (dict_get route "Route")
                  (dict_get route "StopLatitude")
                  (dict_get route "StopLongitude"))).
Proof.
  intros Hst Hd Hbus Hflag Htrue Hroute.
  unfold login_user, login_user_try, login_user_populate, first_student, bind.
  unfold_M.
  unfold post, raise_for_status, response_json, py_contains, py_getitem,
    py_getitem_int, py_get, dict_get.
  cbn [fst snd]. rewrite (not_http_error st Hst), Hd. cbn. rewrite Hbus.
  destruct bus as [| kv bus]; [discriminate |]. cbn [truthy negb].
  rewrite Hflag, Htrue. cbn [negb].
  destruct Hroute as [-> | [-> ->]]; reflexivity.
Qed.

Lemma login_user_populates_witness :
  login_user Samples.login_far BusTracker_init
  = (Returned Samples.sample_origin, Samples.tracker_far).
Proof.
  apply (login_user_populates 200
           [ ("SessionID", JStr "sid-1"); ("LoginGUID", JStr "guid-1");
             ("Students",
              JArr [ JObj [ ("RecordID", JStr "rec-1");
                            ("MatchedBusData", Samples.bus_data true 0 0);
                            ("MatchedRoute",
                             Samples.route_data (45 # 10000) 0) ] ]) ]
           [ ("RecordID", JStr "rec-1");
             ("MatchedBusData", Samples.bus_data true 0 0);
             ("MatchedRoute", Samples.route_data (45 # 10000) 0) ]
           [ ("IsActive", JBool true); ("RPVehicleId", JStr "bus-42");
             ("Latitude", JNum 0); ("Longitude", JNum 0);
             ("Heading", JStr "N"); ("LogTime", JStr "07:31:05") ]
           [ ("Route", JStr "12"); ("StopLatitude", JNum (45 # 10000));
             ("StopLongitude", JNum 0) ]
           [] (JBool true) BusTracker_init).
  - lia.
  - reflexivity.
  - reflexivity.
  - reflexivity.
  - reflexivity.
  - left. reflexivity.
Defined.

(** X24. [vehicledata] answered with status 200 and an active bus
    returns the position, heading and log time of that bus, [None] for
    what the answer has no key for, and leaves the tracker as it was. *)
Theorem vehicledata_returns_position (d bus : list (string * json)) (flag : json)
    (t : BusTracker) :
  dict_lookup "StuBusData" d = Some (JObj bus) ->
  dict_lookup "IsActive" bus = Some flag -> truthy flag = true ->
  vehicledata (Response 200 (Some (JObj d))) t
  = (Returned (dict_get bus "Latitude", dict_get bus "Longitude",
               dict_get bus "Heading", dict_get bus "LogTime"), t).
Proof.
  intros Hd Hflag Htrue. unfold vehicledata. unfold_M.
  unfold post, response_json, py_getitem, py_get, dict_get.
  cbn [fst snd Z.eqb Pos.eqb]. rewrite Hd, Hflag, Htrue. reflexivity.
Qed.

Lemma vehicledata_returns_position_witness :
  vehicledata Setup.vehicle_running Samples.tracker_far
  = (Returned (JNum (1 # 2), JNum (1 # 4), JStr "N", JStr "07:31:05"),
     Samples.tracker_far).
Proof.
  apply (vehicledata_returns_position
           [ ("StuBusData", Samples.bus_data true (1 # 2) (1 # 4)) ]
           [ ("IsActive", JBool true); ("RPVehicleId", JStr "bus-42");
             ("Latitude", JNum (1 # 2)); ("Longitude", JNum (1 # 4));
             ("Heading", JStr "N"); ("LogTime", JStr "07:31:05") ]
           (JBool true) Samples.tracker_far);
    reflexivity.
Defined.

(** ** The older file *)

(** X27. On an answer of status 200, whenever [login_user] of the older
    file returns, [login_user] of the newer file returns the same tuple
    and leaves the same tracker: the newer one differs only where the
    older one raises. *)
Theorem legacy_login_refined (body : option json) (t t' : BusTracker) (s : sample) :
  Legacy.login_user (Response 200 body) t = (Returned s, t') ->
  login_user (Response 200 body) t = (Returned s, t').
Proof.
  unfold Legacy.login_user, Legacy.matched, login_user, login_user_try,
    login_user_populate, first_student, bind.
  unfold_M.
  unfold post, raise_for_status, response_json, py_contains, py_getitem,
    py_getitem_int, py_get.
  cbn [fst snd Z.eqb Pos.eqb Z.leb Z.ltb Z.compare Pos.compare Pos.compare_cont andb].
  destruct body as [data |]; [| discriminate].
  destruct data as [| b | q | str | l | d]; try discriminate.
  destruct (dict_lookup "Students" d) as [students |]; [| discriminate].
  destruct students as [| b | q | str | l | d']; try discriminate.
  - destruct str as [| c str]; cbn; discriminate.
  - destruct l as [| student l]; [discriminate |]. cbn.
    destruct student as [| b | q | str | l' | stu]; try discriminate.
    destruct (dict_lookup "MatchedBusData" stu) as [bus |] eqn:Hb; cbn;
      [| trivial].
    destruct bus as [| b | q | str | l' | bus]; cbn; try discriminate; try trivial.
    + destruct b; cbn; [discriminate | trivial].
    + destruct (negb (Qnum q =? 0)); cbn; [discriminate | trivial].
    + destruct (negb (str =? "")%string); cbn; [discriminate | trivial].
    + destruct l'; cbn; [trivial | discriminate].
    + destruct bus as [| kv bus]; cbn [negb truthy]; [trivial |].
      destruct (dict_lookup "IsActive" (kv :: bus)) as [flag |]; cbn [negb truthy];
        [| trivial].
      destruct (truthy flag); cbn [negb]; [| trivial].
      destruct (dict_lookup "MatchedRoute" stu) as [route |]; [| discriminate].
      destruct route; try discriminate. trivial.
Qed.

Lemma legacy_login_refined_witness :
  login_user Samples.login_near BusTracker_init
  = (Returned Samples.sample_origin, Samples.tracker_near).
Proof.
  apply (legacy_login_refined
           (Some (Samples.login_payload (Samples.bus_data true 0 0)
                    (Samples.route_data (7 # 10000) 0)))
           BusTracker_init Samples.tracker_near Samples.sample_origin).
  reflexivity.
Defined.
